(** * EmotionHandler: the reinforcement-learning emotion selector

    A shallow embedding of [src/Emotion/EmotionHandler.py]: the per-emotion
    reward and initiative dictionaries, the state vector read from them, the
    [DQN] network, the epsilon-greedy [act], the bounded [memory] deque with
    [remember], the [replay] training loop, [learn_from_inference], and the
    singleton construction of [EmotionHandler].

    Conventions of the embedding.
    - Python numbers are read as exact rationals ([Q]); rounding of binary
      floating point is not modelled.  Numeric equality is [Qeq] ([==]);
      Leibniz equality on [Q] is only used for values that are copied or
      produced by the very same arithmetic expression as in the source.
      Where a property depends on the rounding, the code is run on doubles
      instead: [Binary64] has the statistics update with the dictionaries
      holding binary64 values.
    - A method of the handler is a computation in the monad [M]: it takes the
      attributes of [self] and returns either a value or a raised exception,
      together with the attributes as they are at that point.
    - Random draws ([np.random.rand], [random.randrange], [random.uniform],
      [random.sample]) are arguments of the method that draws them.
    - What PyTorch and the classifier pipeline do internally (automatic
      differentiation, the Adam update, model loading) is external to the
      repository; it enters through the class [External]. *)

From Stdlib Require Import QArith ZArith Lia.
From Stdlib Require PrimFloat FloatOps SpecFloat.
From stdpp Require Import base option list sorting strings.

#[local] Set Warnings "-clear-no-such-hyp".

Local Open Scope Z_scope.
Local Open Scope nat_scope.

(** ** Python runtime *)

Module Py.

(** The built-in exceptions the module can raise. *)
Inductive exn : Type :=
| KeyError
| IndexError
| ValueError
| TypeError
| RuntimeError.

(** Outcome of an expression: a value or a raised exception. *)
Inductive result (A : Type) : Type :=
| Ok (a : A)
| Raise (e : exn).
Global Arguments Ok {A} a.
Global Arguments Raise {A} e.

Global Instance result_ret : MRet result := fun A a => Ok a.
Global Instance result_bind : MBind result := fun A B f r =>
  match r with
  | Ok a => f a
  | Raise e => Raise e
  end.

Definition is_Ok {A} (r : result A) : Prop := exists a, r = Ok a.

(** [l[i]] for a list and a non-negative index. *)
Definition list_getitem {A} (l : list A) (i : nat) : result A :=
  match l !! i with
  | Some x => Ok x
  | None => Raise IndexError
  end.

(** *** dict

    A [dict] keeps its keys in insertion order, and [values()], [items()]
    and iteration follow that order; it is an association list without
    repeated keys. *)
Abbreviation dict V := (list (string * V)).

Fixpoint dict_get {V} (d : dict V) (k : string) : option V :=
  match d with
  | [] => None
  | (k', v) :: d' => if String.eqb k' k then Some v else dict_get d' k
  end.

(** [d[k]] *)
Definition dict_getitem {V} (d : dict V) (k : string) : result V :=
  match dict_get d k with
  | Some v => Ok v
  | None => Raise KeyError
  end.

(** [d[k] = v]: an existing key keeps its position, a new key goes last. *)
Fixpoint dict_setitem {V} (d : dict V) (k : string) (v : V) : dict V :=
  match d with
  | [] => [(k, v)]
  | (k', v') :: d' =>
      if String.eqb k' k then (k', v) :: d' else (k', v') :: dict_setitem d' k v
  end.

(** [{k: v for k in ks}] *)
Definition dict_comprehension {V} (ks : list string) (v : V) : dict V :=
  foldl (fun d k => dict_setitem d k v) [] ks.

Definition keys {V} (d : dict V) : list string := d.*1.
Definition values {V} (d : dict V) : list V := d.*2.
Definition items {V} (d : dict V) : list (string * V) := d.

(** *** sorted

    [sorted(l, key=key, reverse=reverse)].  The built-in is a stable sort
    (also with [reverse=True]: elements with equal keys keep their original
    order); it is modelled by the stable insertion sort, which is the only
    function with that contract when keys are totally ordered. *)
Section Sorted.
Context {A : Type} (key : A -> Q) (reverse : bool).

(** [goes_first x y]: [x], which stood before [y] in the input, stays
    before it. *)
Definition goes_first (x y : A) : bool :=
  if reverse then Qle_bool (key y) (key x) else Qle_bool (key x) (key y).

Fixpoint sorted_insert (x : A) (l : list A) : list A :=
  match l with
  | [] => [x]
  | y :: l' => if goes_first x y then x :: y :: l' else y :: sorted_insert x l'
  end.

Fixpoint sorted (l : list A) : list A :=
  match l with
  | [] => []
  | x :: l' => sorted_insert x (sorted l')
  end.
End Sorted.

(** *** collections.deque

    [deque(maxlen=n)]: items oldest first.  [append] on a full deque drops
    the item at the left end. *)
Record deque (A : Type) : Type := Deque { maxlen : nat; dq_items : list A }.
Global Arguments Deque {A} maxlen dq_items.
Global Arguments maxlen {A} d.
Global Arguments dq_items {A} d.

Definition deque_new {A} (n : nat) : deque A := Deque n [].

Definition len {A} (d : deque A) : nat := length (dq_items d).

Definition append {A} (d : deque A) (x : A) : deque A :=
  if maxlen d =? 0 then d
  else if len d <? maxlen d then Deque (maxlen d) (dq_items d ++ [x])
  else Deque (maxlen d) (tail (dq_items d) ++ [x]).

(** *** random

    [random.randrange(n)] with the generator's draw [r]. *)
Definition randrange (n : nat) (r : nat) : result Z :=
  if n =? 0 then Raise ValueError else Ok (Z.of_nat (r mod n)).

(** [random.sample(population, k)]: [k] picks without replacement; the
    [i]-th pick takes position [draws i] (modulo the number of items left)
    of what is left of the population. *)
Fixpoint sample_picks {A} (pool : list A) (k : nat) (draws : list nat) : list A :=
  match k with
  | O => []
  | S k' =>
      let i := hd O draws mod length pool in
      match pool !! i with
      | Some x => x :: sample_picks (delete i pool) k' (tail draws)
      | None => []
      end
  end.

Definition sample {A} (population : list A) (k : Z) (draws : list nat) : result (list A) :=
  if (k <? 0)%Z || (Z.of_nat (length population) <? k)%Z then Raise ValueError
  else Ok (sample_picks population (Z.to_nat k) draws).

End Py.


(** ** PyTorch values used by the module *)

Module Torch.
Import Py.

(** A one-dimensional tensor; the batch dimension added by [unsqueeze(0)] and
    removed again by [[0]] is left out. *)
Abbreviation tensor := (list Q).

(** [torch.FloatTensor(data)]: [data] is a list of numbers, or [None]. *)
Definition FloatTensor (data : option (list Q)) : result tensor :=
  match data with
  | Some l => Ok l
  | None => Raise TypeError
  end.

(** [nn.Linear(in_features, out_features)]: [y = x W^T + b]. *)
Record Linear : Type := {
  in_features : nat;
  out_features : nat;
  weight : list (list Q);
  bias : list Q
}.

(** Initial values of a layer's parameters, as drawn at construction. *)
Record LinearInit : Type := { w_init : nat -> nat -> Q; b_init : nat -> Q }.

Definition nn_Linear (n_in n_out : nat) (i : LinearInit) : Linear :=
  {| in_features := n_in;
     out_features := n_out;
     weight := (fun r => w_init i r <$> seq 0 n_in) <$> seq 0 n_out;
     bias := b_init i <$> seq 0 n_out |}.

Definition dot (x row : list Q) : Q := foldr Qplus 0%Q (zip_with Qmult x row).

Definition Linear_forward (l : Linear) (x : tensor) : result tensor :=
  if length x =? in_features l
  then Ok (zip_with (fun row b => (dot x row + b)%Q) (weight l) (bias l))
  else Raise RuntimeError.

Definition relu (x : tensor) : tensor :=
  (fun v => if Qle_bool v 0 then 0%Q else v) <$> x.

(** [torch.max(t).item()] *)
Definition max (t : tensor) : result Q :=
  match t with
  | [] => Raise RuntimeError
  | v :: t' => Ok (foldl (fun m w => if Qle_bool w m then m else w) v t')
  end.

(** [torch.argmax(t).item()]: the index of the first maximal value. *)
Fixpoint argmax_from (best_i : nat) (best : Q) (i : nat) (t : tensor) : nat :=
  match t with
  | [] => best_i
  | w :: t' =>
      if Qle_bool w best then argmax_from best_i best (S i) t'
      else argmax_from i w (S i) t'
  end.

Definition argmax (t : tensor) : result Z :=
  match t with
  | [] => Raise RuntimeError
  | v :: t' => Ok (Z.of_nat (argmax_from 0 v 1 t'))
  end.

(** [t[i] = v] for an integer index (negative indices count from the end). *)
Definition setitem (t : tensor) (i : Z) (v : Q) : result tensor :=
  let n := Z.of_nat (length t) in
  if ((0 <=? i) && (i <? n))%Z then Ok (<[Z.to_nat i := v]> t)
  else if ((- n <=? i) && (i <? 0))%Z then Ok (<[Z.to_nat (n + i) := v]> t)
  else Raise IndexError.

(** [nn.MSELoss()] carries no state. *)
Inductive Loss : Type := MSELoss.

End Torch.

(** ** Module-level constants *)

Definition emotions : list string :=
  ["anger"; "disgust"; "fear"; "joy"; "neutral"; "sadness"; "surprise"]%string.
Definition state_size : nat := length emotions * 2.
Definition action_size : nat := 3.

(** ** The Deep Q-Network *)

Record DQN : Type := {
  fc1 : Torch.Linear;
  fc2 : Torch.Linear;
  fc3 : Torch.Linear
}.

Record DQNInit : Type := {
  fc1_init : Torch.LinearInit;
  fc2_init : Torch.LinearInit;
  fc3_init : Torch.LinearInit
}.

(** [DQN.__init__] *)
Definition DQN_init (input_size output_size : nat) (i : DQNInit) : DQN :=
  {| fc1 := Torch.nn_Linear input_size 128 (fc1_init i);
     fc2 := Torch.nn_Linear 128 128 (fc2_init i);
     fc3 := Torch.nn_Linear 128 output_size (fc3_init i) |}.

(** [DQN.forward] *)
Definition forward (self : DQN) (x : Torch.tensor) : Py.result Torch.tensor :=
  x ← Torch.Linear_forward (fc1 self) x;
  let x := Torch.relu x in
  x ← Torch.Linear_forward (fc2 self) x;
  let x := Torch.relu x in
  Torch.Linear_forward (fc3 self) x.

(** ** What the repository takes from outside

    The classifier pipeline object, the state of the Adam optimizer, and one
    optimisation step: [optimizer.zero_grad()], the loss
    [loss_fn(target_f, prediction)], [loss.backward()], [optimizer.step()].
    The step sees the network, the optimizer, the input tensor and the two
    tensors the loss compares, and yields the new network and optimizer. *)
Class External : Type := {
  Classifier : Type;
  pipeline : Classifier;
  Optimizer : Type;
  Adam : DQN -> Q -> Optimizer;
  gradient_step :
    Torch.Loss -> DQN -> Optimizer -> Torch.tensor -> Torch.tensor -> Torch.tensor ->
    DQN * Optimizer
}.

(** ** The attributes of an [EmotionHandler] *)

(** A state vector as Python holds it: a list of numbers, or [None]. *)
Abbreviation PyState := (option (list Q)).

(** An experience: the tuple [remember] appends to [memory], read by [replay]
    as [(state, action, reward, next_state, done)]. *)
Abbreviation Transition := (PyState * Z * Q * PyState * bool)%type.

Definition tr_state (t : Transition) : PyState := t.1.1.1.1.
Definition tr_action (t : Transition) : Z := t.1.1.1.2.
Definition tr_reward (t : Transition) : Q := t.1.1.2.
Definition tr_next_state (t : Transition) : PyState := t.1.2.
Definition tr_done (t : Transition) : bool := t.2.

Module self.
Section Attributes.
Context `{External}.

Record t : Type := Build {
  _initialized : bool;
  emotions : list string;
  emotion_reward_map : Py.dict Q;
  initiative_map : Py.dict Q;
  repeated_tone_count : Z;
  random_factor : Q;
  high_initiative_threshold : Q;
  classifier : Classifier;
  current_user_emotion : string;
  current_llm_emotion : list string;
  state_size : nat;
  action_size : nat;
  gamma : Q;
  epsilon : Q;
  epsilon_min : Q;
  epsilon_decay : Q;
  learning_rate : Q;
  previous_state : PyState;
  memory : Py.deque Transition;
  model : DQN;
  optimizer : Optimizer;
  loss_fn : Torch.Loss
}.

(** Assignments [self.x = v], for the attributes that are assigned after
    construction. *)
Definition set_emotion_reward_map (v : Py.dict Q) (h : t) : t :=
  Build (_initialized h) (emotions h) v (initiative_map h)
    (repeated_tone_count h) (random_factor h) (high_initiative_threshold h)
    (classifier h) (current_user_emotion h) (current_llm_emotion h)
    (state_size h) (action_size h) (gamma h) (epsilon h) (epsilon_min h)
    (epsilon_decay h) (learning_rate h) (previous_state h) (memory h)
    (model h) (optimizer h) (loss_fn h).

Definition set_initiative_map (v : Py.dict Q) (h : t) : t :=
  Build (_initialized h) (emotions h) (emotion_reward_map h) v
    (repeated_tone_count h) (random_factor h) (high_initiative_threshold h)
    (classifier h) (current_user_emotion h) (current_llm_emotion h)
    (state_size h) (action_size h) (gamma h) (epsilon h) (epsilon_min h)
    (epsilon_decay h) (learning_rate h) (previous_state h) (memory h)
    (model h) (optimizer h) (loss_fn h).

Definition set_epsilon (v : Q) (h : t) : t :=
  Build (_initialized h) (emotions h) (emotion_reward_map h) (initiative_map h)
    (repeated_tone_count h) (random_factor h) (high_initiative_threshold h)
    (classifier h) (current_user_emotion h) (current_llm_emotion h)
    (state_size h) (action_size h) (gamma h) v (epsilon_min h)
    (epsilon_decay h) (learning_rate h) (previous_state h) (memory h)
    (model h) (optimizer h) (loss_fn h).

Definition set_previous_state (v : PyState) (h : t) : t :=
  Build (_initialized h) (emotions h) (emotion_reward_map h) (initiative_map h)
    (repeated_tone_count h) (random_factor h) (high_initiative_threshold h)
    (classifier h) (current_user_emotion h) (current_llm_emotion h)
    (state_size h) (action_size h) (gamma h) (epsilon h) (epsilon_min h)
    (epsilon_decay h) (learning_rate h) v (memory h)
    (model h) (optimizer h) (loss_fn h).

Definition set_memory (v : Py.deque Transition) (h : t) : t :=
  Build (_initialized h) (emotions h) (emotion_reward_map h) (initiative_map h)
    (repeated_tone_count h) (random_factor h) (high_initiative_threshold h)
    (classifier h) (current_user_emotion h) (current_llm_emotion h)
    (state_size h) (action_size h) (gamma h) (epsilon h) (epsilon_min h)
    (epsilon_decay h) (learning_rate h) (previous_state h) v
    (model h) (optimizer h) (loss_fn h).

(** The optimizer step updates the network's parameters in place and its own
    state with them. *)
Definition set_model_optimizer (v : DQN * Optimizer) (h : t) : t :=
  Build (_initialized h) (emotions h) (emotion_reward_map h) (initiative_map h)
    (repeated_tone_count h) (random_factor h) (high_initiative_threshold h)
    (classifier h) (current_user_emotion h) (current_llm_emotion h)
    (state_size h) (action_size h) (gamma h) (epsilon h) (epsilon_min h)
    (epsilon_decay h) (learning_rate h) (previous_state h) (memory h)
    v.1 v.2 (loss_fn h).

End Attributes.
End self.

(** ** Methods *)

Section Methods.
Context `{External}.
Import Py.

(** A method body: from the attributes of [self] to a value or a raised
    exception, and the attributes at that point. *)
Definition M (A : Type) : Type := self.t -> result A * self.t.

#[global] Instance M_ret : MRet M := fun A a h => (Ok a, h).
#[global] Instance M_bind : MBind M := fun A B f m h =>
  match m h with
  | (Ok a, h') => f a h'
  | (Raise e, h') => (Raise e, h')
  end.

(** Read an attribute. *)
Definition attr {A} (f : self.t -> A) : M A := fun h => (Ok (f h), h).
(** Assign an attribute. *)
Definition assign (f : self.t -> self.t) : M unit := fun h => (Ok tt, f h).
(** Evaluate an expression that does not touch [self]. *)
Definition eval {A} (r : result A) : M A := fun h => (r, h).

(** [for x in l: body(x)] *)
Fixpoint for_each {A} (l : list A) (body : A -> M unit) : M unit :=
  match l with
  | [] => mret tt
  | x :: l' => body x;; for_each l' body
  end.

Definition get_current_state : M (list Q) :=
  rewards ← attr self.emotion_reward_map;
  initiatives ← attr self.initiative_map;
  mret (values rewards ++ values initiatives).

Definition get_previous_state : M PyState := attr self.previous_state.

Definition map_action_to_emotions (action : Z) : M (list string) :=
  initiatives ← attr self.initiative_map;
  let sorted_emotions := sorted snd true (items initiatives) in
  if (action =? 0)%Z then
    e0 ← eval (list_getitem sorted_emotions 0);
    mret [e0.1]
  else if (action =? 1)%Z then
    e0 ← eval (list_getitem sorted_emotions 0);
    e1 ← eval (list_getitem sorted_emotions 1);
    mret [e0.1; e1.1]
  else
    e0 ← eval (list_getitem sorted_emotions 0);
    e1 ← eval (list_getitem sorted_emotions 1);
    e2 ← eval (list_getitem sorted_emotions 2);
    mret [e0.1; e1.1; e2.1].

(** [act]: [rand] is the value of [np.random.rand()], in [0, 1); [r] is the
    generator's draw for [random.randrange]. *)
Definition act (state : PyState) (rand : Q) (r : nat) : M Z :=
  epsilon ← attr self.epsilon;
  if Qle_bool rand epsilon then
    n ← attr self.action_size;
    eval (randrange n r)
  else
    state_tensor ← eval (Torch.FloatTensor state);
    model ← attr self.model;
    act_values ← eval (forward model state_tensor);
    eval (Torch.argmax act_values).

Definition choose_emotions_based_on_initiative (rand : Q) (r : nat) : M (list string) :=
  state ← get_current_state;
  action ← act (Some state) rand r;
  map_action_to_emotions action.

Definition remember (previous_state : PyState) (action : Z) (reward : Q)
    (current_state : PyState) (done : bool) : M unit :=
  memory ← attr self.memory;
  assign (self.set_memory (append memory (previous_state, action, reward, current_state, done))).

Definition update_emotion_and_initiative (user_prompt_emotion : string) (feedback : Q) : M unit :=
  state ← get_current_state;
  assign (self.set_previous_state (Some state));;
  rewards ← attr self.emotion_reward_map;
  old ← eval (dict_getitem rewards user_prompt_emotion);
  assign (self.set_emotion_reward_map (dict_setitem rewards user_prompt_emotion (old + feedback)%Q));;
  initiatives ← attr self.initiative_map;
  old ← eval (dict_getitem initiatives user_prompt_emotion);
  assign (self.set_initiative_map (dict_setitem initiatives user_prompt_emotion (old + 0.1)%Q)).

(** The body of the loop of [replay], for one experience of the minibatch. *)
Definition replay_one (experience : Transition) : M unit :=
  let '(state, action, reward, next_state, done) := experience in
  target ←
    (if negb done then
       next_state_tensor ← eval (Torch.FloatTensor next_state);
       gamma ← attr self.gamma;
       model ← attr self.model;
       q_next ← eval (forward model next_state_tensor);
       best ← eval (Torch.max q_next);
       mret (reward + gamma * best)%Q
     else mret reward);
  state_tensor ← eval (Torch.FloatTensor state);
  model ← attr self.model;
  target_f ← eval (forward model state_tensor);
  target_f ← eval (Torch.setitem target_f action target);
  optimizer ← attr self.optimizer;
  loss_fn ← attr self.loss_fn;
  prediction ← eval (forward model state_tensor);
  assign (self.set_model_optimizer
            (gradient_step loss_fn model optimizer state_tensor target_f prediction)).

Definition Qgt_bool (x y : Q) : bool := negb (Qle_bool x y).

(** [replay]: [draws] are the generator's draws for [random.sample]. *)
Definition replay (batch_size : Z) (draws : list nat) : M unit :=
  memory ← attr self.memory;
  if (Z.of_nat (len memory) <? batch_size)%Z then mret tt
  else
    minibatch ← eval (sample (dq_items memory) batch_size draws);
    for_each minibatch replay_one;;
    epsilon ← attr self.epsilon;
    epsilon_min ← attr self.epsilon_min;
    if Qgt_bool epsilon epsilon_min then
      epsilon_decay ← attr self.epsilon_decay;
      assign (self.set_epsilon (epsilon * epsilon_decay)%Q)
    else mret tt.

(** [learn_from_inference]: [feedback] is the value of
    [random.uniform(-1, 1)]; [rand] and [r] are the draws of [act]. *)
Definition learn_from_inference (feedback : Q) (rand : Q) (r : nat) : M unit :=
  user_emotion ← attr self.current_user_emotion;
  update_emotion_and_initiative user_emotion feedback;;
  current_state ← get_current_state;
  action ← act (Some current_state) rand r;
  previous_state ← attr self.previous_state;
  remember (Some current_state) action feedback previous_state false.

(** [get_llm_response_emotion]: the draws of the two calls of [act] and the
    feedback draw. *)
Definition get_llm_response_emotion (user_prompt_emotion : string)
    (rand1 : Q) (r1 : nat) (feedback : Q) (rand2 : Q) (r2 : nat) : M (list string) :=
  emotions_to_use ← choose_emotions_based_on_initiative rand1 r1;
  learn_from_inference feedback rand2 r2;;
  mret emotions_to_use.

(** ** Construction *)

(** The arguments of [EmotionHandler(...)], and the initial parameters drawn
    for the network. *)
Record Args : Type := {
  arg_emotions : list string;
  arg_state_size : nat;
  arg_action_size : nat;
  arg_gamma : Q;
  arg_epsilon : Q;
  arg_epsilon_min : Q;
  arg_epsilon_decay : Q;
  arg_learning_rate : Q;
  dqn_draw : DQNInit
}.

Definition default_args (i : DQNInit) : Args :=
  {| arg_emotions := emotions;
     arg_state_size := state_size;
     arg_action_size := action_size;
     arg_gamma := 0.95;
     arg_epsilon := 1.0;
     arg_epsilon_min := 0.01;
     arg_epsilon_decay := 0.995;
     arg_learning_rate := 0.001;
     dqn_draw := i |}.

(** An object of the class: as [object.__new__] makes it, without
    attributes, or with the attributes [__init__] assigns. *)
Inductive object : Type :=
| Blank
| Attrs (h : self.t).

(** The attributes [__init__] assigns past its guard. *)
Definition init_attrs (a : Args) : self.t :=
  let model := DQN_init (arg_state_size a) (arg_action_size a) (dqn_draw a) in
  {| self._initialized := true;
     self.emotions := arg_emotions a;
     self.emotion_reward_map := dict_comprehension (arg_emotions a) 1%Q;
     self.initiative_map := dict_comprehension (arg_emotions a) 1%Q;
     self.repeated_tone_count := 0%Z;
     self.random_factor := 0.3;
     self.high_initiative_threshold := 1.3;
     self.classifier := pipeline;
     self.current_user_emotion := "neutral";
     self.current_llm_emotion := ["neutral"%string];
     self.state_size := arg_state_size a;
     self.action_size := arg_action_size a;
     self.gamma := arg_gamma a;
     self.epsilon := arg_epsilon a;
     self.epsilon_min := arg_epsilon_min a;
     self.epsilon_decay := arg_epsilon_decay a;
     self.learning_rate := arg_learning_rate a;
     self.previous_state := None;
     self.memory := deque_new 4000;
     self.model := model;
     self.optimizer := Adam model (arg_learning_rate a);
     self.loss_fn := Torch.MSELoss |}.

(** [__init__]: [hasattr(self, '_initialized') and self._initialized] *)
Definition __init__ (o : object) (a : Args) : object :=
  match o with
  | Attrs h => if self._initialized h then o else Attrs (init_attrs a)
  | Blank => Attrs (init_attrs a)
  end.

(** The objects of the program, by address, and the class variable
    [EmotionHandler._instance]. *)
Record Runtime : Type := {
  heap : list object;
  _instance : option nat
}.

Definition start : Runtime := {| heap := []; _instance := None |}.

(** [__new__]: the address of the instance. *)
Definition __new__ (rt : Runtime) : Runtime * nat :=
  match _instance rt with
  | None =>
      let a := length (heap rt) in
      ({| heap := heap rt ++ [Blank]; _instance := Some a |}, a)
  | Some a => (rt, a)
  end.

(** The call [EmotionHandler(...)]: [__new__], then [__init__] on the object
    it returned. *)
Definition EmotionHandler (rt : Runtime) (args : Args) : Runtime * nat :=
  let '(rt1, a) := __new__ rt in
  match heap rt1 !! a with
  | Some o => ({| heap := <[a := __init__ o args]> (heap rt1); _instance := _instance rt1 |}, a)
  | None => (rt1, a)
  end.

(** A method call on the object at address [a]. *)
Definition call {A} (a : nat) (m : M A) (rt : Runtime) : option (result A * Runtime) :=
  match heap rt !! a with
  | Some (Attrs h) =>
      let '(r, h') := m h in
      Some (r, {| heap := <[a := Attrs h']> (heap rt); _instance := _instance rt |})
  | _ => None
  end.

(** ** Histories

    The method calls a client can make on the handler, with their arguments
    and the draws of the generators. *)
Inductive Call : Type :=
| GetCurrentState
| GetPreviousState
| MapActionToEmotions (action : Z)
| Act (state : PyState) (rand : Q) (r : nat)
| ChooseEmotionsBasedOnInitiative (rand : Q) (r : nat)
| Remember (previous_state : PyState) (action : Z) (reward : Q)
    (current_state : PyState) (done : bool)
| UpdateEmotionAndInitiative (user_prompt_emotion : string) (feedback : Q)
| LearnFromInference (feedback : Q) (rand : Q) (r : nat)
| Replay (batch_size : Z) (draws : list nat)
| GetLlmResponseEmotion (user_prompt_emotion : string)
    (rand1 : Q) (r1 : nat) (feedback : Q) (rand2 : Q) (r2 : nat).

(** The call of [remember] that pushes the experience [t]. *)
Definition push (t : Transition) : Call :=
  Remember (tr_state t) (tr_action t) (tr_reward t) (tr_next_state t) (tr_done t).

(** The attributes after a call, whether it returned or raised. *)
Definition after (c : Call) (h : self.t) : self.t :=
  match c with
  | GetCurrentState => (get_current_state h).2
  | GetPreviousState => (get_previous_state h).2
  | MapActionToEmotions action => (map_action_to_emotions action h).2
  | Act state rand r => (act state rand r h).2
  | ChooseEmotionsBasedOnInitiative rand r =>
      (choose_emotions_based_on_initiative rand r h).2
  | Remember previous_state action reward current_state done =>
      (remember previous_state action reward current_state done h).2
  | UpdateEmotionAndInitiative e feedback =>
      (update_emotion_and_initiative e feedback h).2
  | LearnFromInference feedback rand r => (learn_from_inference feedback rand r h).2
  | Replay batch_size draws => (replay batch_size draws h).2
  | GetLlmResponseEmotion e rand1 r1 feedback rand2 r2 =>
      (get_llm_response_emotion e rand1 r1 feedback rand2 r2 h).2
  end.

Definition after_all (cs : list Call) (h : self.t) : self.t :=
  foldl (fun h c => after c h) h cs.

(** The same history on the object at address [a] of a runtime. *)
Definition after_all_at (a : nat) (cs : list Call) (rt : Runtime) : Runtime :=
  match heap rt !! a with
  | Some (Attrs h) =>
      {| heap := <[a := Attrs (after_all cs h)]> (heap rt); _instance := _instance rt |}
  | _ => rt
  end.

(** ** Notions the properties are stated with *)

(** [stays_before key original a b]: in a descending order by [key] that
    keeps ties in the order of [original], [a] comes before [b]: its key is
    greater, or the keys are equal and [a] stands before [b] in [original]. *)
Definition stays_before {A} (key : A -> Q) (original : list A) (a b : A) : Prop :=
  (key b < key a)%Q \/
  (key a == key b /\ exists p q, p < q /\ original !! p = Some a /\ original !! q = Some b).

(** [ranks_before original a b]: item [a] of a dictionary ranks before item
    [b] by its value, ties in the order of [original]. *)
Definition ranks_before (original : list (string * Q)) (a b : string * Q) : Prop :=
  stays_before snd original a b.

(** The state vector [get_current_state] reads off the attributes. *)
Definition state_vector (h : self.t) : list Q :=
  values (self.emotion_reward_map h) ++ values (self.initiative_map h).

(** The ranking [map_action_to_emotions] works with. *)
Definition ranking (h : self.t) : list (string * Q) :=
  sorted snd true (items (self.initiative_map h)).

(** Two lists of items with the same keys and numerically equal values. *)
Definition same_items (l l' : list (string * Q)) : Prop :=
  Forall2 (fun kv kv' => kv.1 = kv'.1 /\ kv.2 == kv'.2) l l'.

(** How many emotions an action asks for. *)
Definition emotions_wanted (action : Z) : nat :=
  if (action =? 0)%Z then 1 else if (action =? 1)%Z then 2 else 3.

(** The initiative values of the example: joy 5, anger 3, fear 3, the others 1. *)
Definition example_initiative : list (string * Q) :=
  [("anger", 3%Q); ("disgust", 1%Q); ("fear", 3%Q); ("joy", 5%Q);
   ("neutral", 1%Q); ("sadness", 1%Q); ("surprise", 1%Q)]%string.

(** The target [replay_one] computes before it reads the prediction: the
    first half of the loop body, with the scores of the network passed as
    [score]. *)
Definition bootstrapped_target (gamma : Q) (score : Torch.tensor -> result Torch.tensor)
    (experience : Transition) : result Q :=
  if tr_done experience then Ok (tr_reward experience)
  else
    next ← Torch.FloatTensor (tr_next_state experience);
    q ← score next;
    best ← Torch.max q;
    Ok (tr_reward experience + gamma * best)%Q.

(** What [replay_one] does once the target is known: the prediction for the
    stored state by the network of [h], the target vector that differs from
    it in the slot of the action, and one optimisation step. *)
Definition fit_toward (target : Q) (experience : Transition) (h : self.t) :
    result unit * self.t :=
  match Torch.FloatTensor (tr_state experience) with
  | Raise e => (Raise e, h)
  | Ok state_tensor =>
      match forward (self.model h) state_tensor with
      | Raise e => (Raise e, h)
      | Ok prediction =>
          match Torch.setitem prediction (tr_action experience) target with
          | Raise e => (Raise e, h)
          | Ok target_f =>
              (Ok tt,
               self.set_model_optimizer
                 (gradient_step (self.loss_fn h) (self.model h) (self.optimizer h)
                    state_tensor target_f prediction) h)
          end
      end
  end.

(** [greatest q best]: [best] is one of the scores [q], and no score of [q]
    is greater. *)
Definition greatest (q : list Q) (best : Q) : Prop :=
  best ∈ q /\ Forall (fun score => (score <= best)%Q) q.

(** The bootstrapped target as the specification words it: [target] is the
    reward when the experience is terminal, and otherwise the reward plus
    [gamma] times the greatest of the scores [score] gives the next state. *)
Definition is_bootstrapped_target (gamma : Q) (score : Torch.tensor -> result Torch.tensor)
    (experience : Transition) (target : Q) : Prop :=
  if tr_done experience then target = tr_reward experience
  else
    exists next q best,
      tr_next_state experience = Some next /\
      score next = Ok q /\
      greatest q best /\
      target = (tr_reward experience + gamma * best)%Q.

(** What holds of the attributes from construction on: the object is marked
    initialised, the two dictionaries have the same keys in the same order,
    each once, the keys are the emotions given at construction, and [memory]
    is the deque of capacity 4000. *)
Definition consistent (h : self.t) : Prop :=
  self._initialized h = true /\
  NoDup (keys (self.initiative_map h)) /\
  keys (self.emotion_reward_map h) = keys (self.initiative_map h) /\
  (forall e, e ∈ keys (self.initiative_map h) <-> e ∈ self.emotions h) /\
  maxlen (self.memory h) = 4000 /\
  len (self.memory h) <= 4000.

(** A method body preserves a property of the attributes, whether it returns
    or raises. *)
Definition preserves {A} (P : self.t -> Prop) (m : M A) : Prop :=
  forall h, P h -> P (m h).2.

(** The exploration hyperparameters have the given values. *)
Definition exploration (epsilon epsilon_min epsilon_decay : Q) (h : self.t) : Prop :=
  self.epsilon h = epsilon /\
  self.epsilon_min h = epsilon_min /\
  self.epsilon_decay h = epsilon_decay.

(** One application of the decay rule at the end of [replay]. *)
Definition decay (epsilon epsilon_min epsilon_decay : Q) : Q :=
  if Qgt_bool epsilon epsilon_min then (epsilon * epsilon_decay)%Q else epsilon.

End Methods.

(** ** A concrete environment for running the model

    No classifier state, and an optimizer that leaves the parameters as they
    are; the network starts with all parameters zero. *)
Definition idle : External :=
  {| Classifier := unit;
     pipeline := tt;
     Optimizer := unit;
     Adam := fun _ _ => tt;
     gradient_step := fun _ m o _ _ _ => (m, o) |}.

Definition zeros : DQNInit :=
  let z := {| Torch.w_init := fun _ _ => 0%Q; Torch.b_init := fun _ => 0%Q |} in
  {| fc1_init := z; fc2_init := z; fc3_init := z |}.

(** The handler right after [EmotionHandler()] with the default arguments. *)
Definition fresh : @self.t idle := @init_attrs idle (default_args zeros).

(** Initial parameters with which the network scores action 0 at 3, action 1
    at 1 and action 2 at 2 for every input. *)
Definition prefers_action_0 : DQNInit :=
  let z := {| Torch.w_init := fun _ _ => 0%Q; Torch.b_init := fun _ => 0%Q |} in
  {| fc1_init := z;
     fc2_init := z;
     fc3_init := {| Torch.w_init := fun _ _ => 0%Q;
                    Torch.b_init := fun i => nth i [3%Q; 1%Q; 2%Q] 0%Q |} |}.

(** The handler right after [EmotionHandler(epsilon=0)]. *)
Definition greedy : @self.t idle :=
  @init_attrs idle
    {| arg_emotions := emotions;
       arg_state_size := state_size;
       arg_action_size := action_size;
       arg_gamma := 0.95;
       arg_epsilon := 0;
       arg_epsilon_min := 0.01;
       arg_epsilon_decay := 0.995;
       arg_learning_rate := 0.001;
       dqn_draw := prefers_action_0 |}.

(** The fresh handler after one [learn_from_inference], with feedback 0.5:
    [memory] holds one experience. *)
Definition one_experience : @self.t idle :=
  @after idle (LearnFromInference 0.5 0.3 7) fresh.

(** The handler constructed with [epsilon] 0 after one [learn_from_inference]
    with feedback 0.5, which exploits: [memory] holds one experience, and
    the network scores the actions at 3, 1 and 2. *)
Definition greedy_one_experience : @self.t idle :=
  @after idle (LearnFromInference 0.5 0.3 7) greedy.

(** The fresh handler with the initiative values of the example. *)
Definition example_handler : @self.t idle :=
  self.set_initiative_map example_initiative fresh.

(** ** The classifier boundary and further notions *)

Section Further.
Context `{External}.
Import Py.

(** The body of the coroutine [classify_emotion]: [scores] is what the
    classifier pipeline returns for the text, one (label, score) entry per
    dictionary of its list. *)
Definition classify_emotion (input_text : option string) (scores : list (string * Q)) :
    M (option (list (string * Q))) :=
  match input_text with
  | None => mret None
  | Some _ =>
      let classified_emotion := sorted snd false scores in
      mret (Some classified_emotion)
  end.

(** A call other than a direct [remember]. *)
Definition no_direct_push (c : Call) : Prop :=
  match c with
  | Remember _ _ _ _ _ => False
  | _ => True
  end.

(** An experience as the learning cycle stores it: not terminal, both state
    slots hold a vector. *)
Definition cycle_experience (t : Transition) : Prop :=
  tr_done t = false /\ is_Some (tr_state t) /\ is_Some (tr_next_state t).

(** [h'] differs from [h] at most in the network, the optimizer and
    [epsilon]. *)
Definition only_trained (h h' : self.t) : Prop :=
  exists epsilon trained, h' = self.set_epsilon epsilon (self.set_model_optimizer trained h).

(** [h'] differs from [h] at most in [previous_state], the two dictionaries
    and [memory]. *)
Definition only_learned (h h' : self.t) : Prop :=
  exists previous rewards initiatives memory,
    h' = self.set_memory memory
           (self.set_initiative_map initiatives
              (self.set_emotion_reward_map rewards
                 (self.set_previous_state previous h))).

(** The output layer of the network has one row and one bias per action. *)
Definition output_per_action (h : self.t) : Prop :=
  length (Torch.weight (fc3 (self.model h))) = self.action_size h /\
  length (Torch.bias (fc3 (self.model h))) = self.action_size h.

(** The initiative of every emotion in [h'] is at least what it is in [h]. *)
Definition initiative_grown (h h' : self.t) : Prop :=
  forall e v, dict_get (self.initiative_map h) e = Some v ->
    exists v', dict_get (self.initiative_map h') e = Some v' /\ (v <= v')%Q.

(** The bounds the decay rule keeps [epsilon] in: not negative, and not above
    [top]. *)
Definition epsilon_bounds (epsilon_min epsilon_decay top : Q) (h : self.t) : Prop :=
  self.epsilon_min h = epsilon_min /\
  self.epsilon_decay h = epsilon_decay /\
  (0 <= self.epsilon h)%Q /\
  (self.epsilon h <= top)%Q.

(** The keys of the two dictionaries are [ks], in this order. *)
Definition keyed (ks : list string) (h : self.t) : Prop :=
  keys (self.emotion_reward_map h) = ks /\ keys (self.initiative_map h) = ks.

(** [current_user_emotion] is still "neutral" and is no key of the reward
    dictionary. *)
Definition neutral_missing (h : self.t) : Prop :=
  self.current_user_emotion h = "neutral"%string /\
  dict_get (self.emotion_reward_map h) "neutral" = None.

End Further.

(** A handler constructed with two emotions only. *)
Definition two_emotions : @self.t idle :=
  @init_attrs idle
    {| arg_emotions := ["joy"; "anger"]%string;
       arg_state_size := 4;
       arg_action_size := action_size;
       arg_gamma := 0.95;
       arg_epsilon := 1.0;
       arg_epsilon_min := 0.01;
       arg_epsilon_decay := 0.995;
       arg_learning_rate := 0.001;
       dqn_draw := zeros |}.

(** A construction with three emotions, "neutral" not among them. *)
Definition without_neutral : Args :=
  {| arg_emotions := ["joy"; "anger"; "fear"]%string;
     arg_state_size := 6;
     arg_action_size := action_size;
     arg_gamma := 0.95;
     arg_epsilon := 1.0;
     arg_epsilon_min := 0.01;
     arg_epsilon_decay := 0.995;
     arg_learning_rate := 0.001;
     dqn_draw := zeros |}.

(** ** The statistics in binary64

    Python's numbers are doubles here: the dictionaries hold binary64 values
    and [+=] is the binary64 addition, which rounds the exact sum to the
    nearest double.  The int [1] the dictionaries start with is read as the
    double [1.0], which [+=] with a float treats alike. *)

Module Binary64.
Import Py PrimFloat.

(** The attributes the statistics update reads and assigns. *)
Record stats : Type := Stats {
  emotion_reward_map : dict float;
  initiative_map : dict float;
  previous_state : option (list float)
}.

(** The literal [0.1]: the double nearest to one tenth. *)
Definition tenth : float := 0x1.999999999999ap-4%float.

(** The statistics right after [EmotionHandler()] with the default
    arguments. *)
Definition fresh : stats :=
  {| emotion_reward_map := dict_comprehension emotions 1%float;
     initiative_map := dict_comprehension emotions 1%float;
     previous_state := None |}.

Definition get_current_state (s : stats) : list float :=
  values (emotion_reward_map s) ++ values (initiative_map s).

Definition update_emotion_and_initiative (user_prompt_emotion : string) (feedback : float)
    (s : stats) : result unit * stats :=
  let s := Stats (emotion_reward_map s) (initiative_map s) (Some (get_current_state s)) in
  match dict_get (emotion_reward_map s) user_prompt_emotion with
  | None => (Raise KeyError, s)
  | Some old =>
      let s := Stats (dict_setitem (emotion_reward_map s) user_prompt_emotion
                        (old + feedback)%float)
                 (initiative_map s) (previous_state s) in
      match dict_get (initiative_map s) user_prompt_emotion with
      | None => (Raise KeyError, s)
      | Some old =>
          (Ok tt,
           Stats (emotion_reward_map s)
             (dict_setitem (initiative_map s) user_prompt_emotion (old + tenth)%float)
             (previous_state s))
      end
  end.

(** The number a finite double stands for. *)
Definition value (f : float) : option Q :=
  match FloatOps.Prim2SF f with
  | SpecFloat.S754_zero _ => Some 0%Q
  | SpecFloat.S754_finite s m e =>
      let z := if s then Z.neg m else Z.pos m in
      Some (if (0 <=? e)%Z then inject_Z (z * 2 ^ e) else Qred (z # (2 ^ Z.to_pos (- e))))%Q
  | _ => None
  end.

(** [grew_by old new step]: the number [new] stands for is the number [old]
    stands for plus [step], exactly. *)
Definition grew_by (old new : float) (step : Q) : Prop :=
  exists q_old q_new, value old = Some q_old /\ value new = Some q_new /\
                      q_new == q_old + step.

(** A feedback too small to move a reward of 1: the double nearest to 1e-17. *)
Definition tiny : float := 0x1.70ef54646d497p-57%float.

End Binary64.

(** * Properties *)

(** ** Dictionaries *)

Section DictFacts.
Import Py.
Context {V : Type}.
Implicit Types (d : dict V) (k : string) (v : V).

Lemma dict_get_setitem_eq d k v : dict_get (dict_setitem d k v) k = Some v.
Proof.
  induction d as [|[k' v'] d IH]; cbn.
  - by rewrite String.eqb_refl.
  - destruct (String.eqb k' k) eqn:E; cbn; by rewrite E.
Qed.

Lemma dict_get_setitem_ne d k k' v :
  k' <> k -> dict_get (dict_setitem d k v) k' = dict_get d k'.
Proof.
  intros Hne. induction d as [|[k0 v0] d IH]; cbn.
  - destruct (String.eqb_spec k k'); congruence.
  - destruct (String.eqb_spec k0 k) as [->|]; cbn.
    + destruct (String.eqb_spec k k'); congruence.
    + by rewrite IH.
Qed.

Lemma elem_of_keys d k : k ∈ keys d <-> is_Some (dict_get d k).
Proof.
  unfold keys. induction d as [|[k0 v0] d IH]; cbn.
  - split; [by intros ?%elem_of_nil | by intros [? ?]].
  - rewrite elem_of_cons, IH.
    destruct (String.eqb_spec k0 k) as [->|]; [split; eauto | naive_solver].
Qed.

Lemma keys_setitem_present d k v :
  is_Some (dict_get d k) -> keys (dict_setitem d k v) = keys d.
Proof.
  unfold keys. induction d as [|[k0 v0] d IH]; cbn.
  - by intros [? ?].
  - destruct (String.eqb_spec k0 k) as [->|]; cbn; [done|].
    intros ?. by rewrite IH.
Qed.

Lemma keys_setitem_absent d k v :
  dict_get d k = None -> keys (dict_setitem d k v) = keys d ++ [k].
Proof.
  unfold keys. induction d as [|[k0 v0] d IH]; cbn; [done|].
  destruct (String.eqb_spec k0 k) as [->|]; cbn; [done|].
  intros ?. by rewrite IH.
Qed.

Lemma keys_setitem_NoDup d k v : NoDup (keys d) -> NoDup (keys (dict_setitem d k v)).
Proof.
  intros Hnd. destruct (dict_get d k) eqn:E.
  - by rewrite keys_setitem_present.
  - rewrite keys_setitem_absent by done.
    apply NoDup_app. repeat split; [done | | apply NoDup_singleton].
    intros x Hx ->%list_elem_of_singleton.
    apply elem_of_keys in Hx. rewrite E in Hx. by destruct Hx.
Qed.

Lemma elem_of_keys_setitem d k k' v :
  k' ∈ keys (dict_setitem d k v) <-> k' = k \/ k' ∈ keys d.
Proof.
  rewrite !elem_of_keys. destruct (decide (k' = k)) as [->|Hne].
  - rewrite dict_get_setitem_eq. naive_solver.
  - rewrite dict_get_setitem_ne by done. naive_solver.
Qed.

Lemma length_setitem_present d k v :
  is_Some (dict_get d k) -> length (dict_setitem d k v) = length d.
Proof.
  intros Hk. rewrite <- (length_fmap fst), <- (length_fmap fst d).
  by apply (f_equal length), keys_setitem_present.
Qed.

(** The dictionary built by a comprehension: its keys are the given ones,
    without repetition. *)
Lemma dict_comprehension_keys (ks : list string) v (d0 : dict V) :
  NoDup (keys d0) ->
  let d := foldl (fun d k => dict_setitem d k v) d0 ks in
  NoDup (keys d) /\ forall k, k ∈ keys d <-> k ∈ keys d0 \/ k ∈ ks.
Proof.
  revert d0. induction ks as [|k0 ks IH]; intros d0 Hnd; cbn.
  - split; [done|]. intros k. rewrite elem_of_nil. naive_solver.
  - destruct (IH (dict_setitem d0 k0 v)) as [Hnd' Hin]; [by apply keys_setitem_NoDup|].
    split; [done|]. intros k. rewrite Hin, elem_of_keys_setitem, elem_of_cons.
    naive_solver.
Qed.

Lemma dict_comprehension_NoDup (ks : list string) v :
  NoDup (keys (dict_comprehension ks v)).
Proof. apply (dict_comprehension_keys ks v []). constructor. Qed.

Lemma elem_of_dict_comprehension (ks : list string) v k :
  k ∈ keys (dict_comprehension ks v) <-> k ∈ ks.
Proof.
  destruct (dict_comprehension_keys ks v []) as [_ Hin]; [constructor|].
  unfold dict_comprehension. rewrite Hin. cbn. rewrite elem_of_nil. naive_solver.
Qed.

End DictFacts.

(** ** The stable sort, in descending order of the key *)

Section SortedFacts.
Import Py.
Context {A : Type} (key : A -> Q).
Implicit Types (x y : A) (l s : list A).

Lemma stays_before_key original a b : stays_before key original a b -> (key b <= key a)%Q.
Proof.
  intros [Hlt|[Heq _]]; [by apply Qlt_le_weak|]. rewrite Heq. apply Qle_refl.
Qed.

Lemma stays_before_cons x l a b : stays_before key l a b -> stays_before key (x :: l) a b.
Proof.
  intros [Hlt|[Heq (p & q & Hpq & Hp & Hq)]]; [by left|].
  right. split; [done|]. exists (S p), (S q). repeat split; [lia|done..].
Qed.

Lemma sorted_insert_Permutation rev x s : sorted_insert key rev x s ≡ₚ x :: s.
Proof.
  induction s as [|y s IH]; cbn; [done|].
  destruct (goes_first key rev x y); [done|].
  rewrite IH. apply Permutation_swap.
Qed.

Lemma sorted_Permutation rev l : sorted key rev l ≡ₚ l.
Proof.
  induction l as [|x l IH]; cbn; [done|].
  by rewrite sorted_insert_Permutation, IH.
Qed.

Lemma length_sorted rev l : length (sorted key rev l) = length l.
Proof. apply Permutation_length, sorted_Permutation. Qed.

Lemma sorted_insert_descending x l s :
  s ⊆ l ->
  StronglySorted (stays_before key (x :: l)) s ->
  StronglySorted (stays_before key (x :: l)) (sorted_insert key true x s).
Proof.
  intros Hsub Hs. induction Hs as [|y s Hs IH Hy]; cbn.
  - repeat constructor.
  - unfold goes_first. destruct (Qle_bool (key y) (key x)) eqn:E.
    + apply Qle_bool_iff in E.
      constructor; [by constructor|].
      assert (Hall : Forall (fun z => (key z <= key y)%Q) (y :: s)).
      { constructor; [apply Qle_refl|].
        eapply Forall_impl; [exact Hy|]. intros z. apply stays_before_key. }
      apply Forall_forall. intros z Hz.
      pose proof (proj1 (Forall_forall _ _) Hall z Hz) as Hzy. cbn in Hzy.
      assert (Hzx : (key z <= key x)%Q) by (eapply Qle_trans; eauto).
      destruct (Qle_lt_or_eq _ _ Hzx) as [Hlt|Heq]; [by left|].
      right. split; [by symmetry|].
      assert (Hzl : z ∈ l) by (apply Hsub; exact Hz).
      apply list_elem_of_lookup in Hzl as [q Hq].
      exists 0, (S q). repeat split; [lia|done..].
    + assert (Hxy : (key x < key y)%Q).
      { apply Qnot_le_lt. intros Hle. apply Qle_bool_iff in Hle. congruence. }
      constructor.
      * apply IH. intros z Hz. apply Hsub. by right.
      * rewrite sorted_insert_Permutation. constructor; [by left|done].
Qed.

Lemma StronglySorted_stays_before_cons x l s :
  StronglySorted (stays_before key l) s -> StronglySorted (stays_before key (x :: l)) s.
Proof.
  induction 1 as [|y s Hs IH Hy]; constructor; [done|].
  eapply Forall_impl; [exact Hy|]. intros z. apply stays_before_cons.
Qed.

(** The result of the sort is in descending order of the key, and items with
    equal keys are in the order they had in the input. *)
Lemma sorted_descending_stable l :
  StronglySorted (stays_before key l) (sorted key true l).
Proof.
  induction l as [|x l IH]; cbn; [constructor|].
  apply sorted_insert_descending.
  - intros z Hz. by rewrite sorted_Permutation in Hz.
  - by apply StronglySorted_stays_before_cons.
Qed.

End SortedFacts.

(** ** Running method bodies *)

(** Unfold the monad of method bodies down to matches on results. *)
Ltac run_method :=
  unfold attr, assign, eval, mbind, mret, M_bind, M_ret; cbn beta iota.

Section MethodFacts.
Context `{External}.
Import Py.
Implicit Types (h : self.t) (e : string).

Lemma get_current_state_run h :
  get_current_state h =
    (Ok (values (self.emotion_reward_map h) ++ values (self.initiative_map h)), h).
Proof. reflexivity. Qed.

(** *** The statistics update *)

Lemma update_emotion_and_initiative_run h e (f r i : Q) :
  dict_get (self.emotion_reward_map h) e = Some r ->
  dict_get (self.initiative_map h) e = Some i ->
  update_emotion_and_initiative e f h =
    (Ok tt,
     self.set_initiative_map (dict_setitem (self.initiative_map h) e (i + 0.1)%Q)
       (self.set_emotion_reward_map (dict_setitem (self.emotion_reward_map h) e (r + f)%Q)
          (self.set_previous_state
             (Some (values (self.emotion_reward_map h) ++ values (self.initiative_map h)))
             h))).
Proof.
  intros Hr Hi. unfold update_emotion_and_initiative, get_current_state, dict_getitem.
  run_method. cbn. rewrite Hr. cbn. by rewrite Hi.
Qed.

(** *** Skipping the training step *)

(** C7. When [memory] holds fewer experiences than [batch_size], [replay]
    returns [None] without raising and leaves every attribute, among them
    the network, the optimizer, [epsilon] and [memory], as it was. *)
Theorem replay_skips_short_memory h (batch_size : Z) (draws : list nat) :
  (Z.of_nat (len (self.memory h)) < batch_size)%Z ->
  replay batch_size draws h = (Ok tt, h).
Proof.
  intros Hlt. unfold replay. run_method.
  by rewrite (proj2 (Z.ltb_lt _ _) Hlt).
Qed.

End MethodFacts.

(** ** Ranking and the choice of emotions *)

Lemma sorted_insert_same_items x x' l l' :
  x.1 = x'.1 -> x.2 == x'.2 -> same_items l l' ->
  same_items (Py.sorted_insert snd true x l) (Py.sorted_insert snd true x' l').
Proof.
  intros Hk Hv Hl. induction Hl as [|y y' l l' [Hyk Hyv] Hl IH]; cbn.
  - by repeat constructor.
  - unfold Py.goes_first.
    assert (E : Qle_bool y.2 x.2 = Qle_bool y'.2 x'.2).
    { apply eq_true_iff_eq. rewrite !Qle_bool_iff. by rewrite Hv, Hyv. }
    rewrite E. destruct (Qle_bool y'.2 x'.2); by repeat constructor.
Qed.

Lemma sorted_same_items l l' :
  same_items l l' -> same_items (Py.sorted snd true l) (Py.sorted snd true l').
Proof.
  induction 1 as [|x x' l l' [Hk Hv] Hl IH]; cbn; [constructor|].
  by apply sorted_insert_same_items.
Qed.

Lemma same_items_keys l l' : same_items l l' -> l.*1 = l'.*1.
Proof. induction 1 as [|x x' l l' [Hk _] _ IH]; cbn; congruence. Qed.

Section RankingFacts.
Context `{External}.
Import Py.
Implicit Types (h : self.t) (action : Z).

Lemma ranking_Permutation h : ranking h ≡ₚ items (self.initiative_map h).
Proof. apply sorted_Permutation. Qed.

Lemma ranking_sorted h :
  StronglySorted (ranks_before (items (self.initiative_map h))) (ranking h).
Proof. apply (sorted_descending_stable snd). Qed.

Lemma map_action_to_emotions_run h action :
  3 <= length (self.initiative_map h) ->
  map_action_to_emotions action h = (Ok (take (emotions_wanted action) (ranking h)).*1, h).
Proof.
  intros Hlen. unfold map_action_to_emotions, emotions_wanted. run_method.
  fold (ranking h).
  assert (Hl : 3 <= length (ranking h)).
  { unfold ranking. by rewrite length_sorted. }
  destruct (ranking h) as [|a [|b [|c rest]]]; cbn in Hl; try lia.
  destruct (action =? 0)%Z; [done|]. by destruct (action =? 1)%Z.
Qed.


Lemma ranking_example h :
  same_items (self.initiative_map h) example_initiative ->
  (ranking h).*1 = ["joy"; "anger"; "fear"; "disgust"; "neutral"; "sadness"; "surprise"]%string.
Proof.
  intros Hs. apply sorted_same_items, same_items_keys in Hs.
  unfold ranking, items. by rewrite Hs.
Qed.

(** C4. For an initiative dictionary over the emotion set,
    [map_action_to_emotions] works with the ranking of the items that is a
    rearrangement of the dictionary in descending order of initiative, items
    of equal initiative staying in the order of the emotion set; action 0
    returns the first emotion of the ranking, action 1 the first two and
    action 2 the first three.  With joy at 5, anger and fear at 3 and the
    others at 1 the three answers are [joy], [joy, anger] and
    [joy, anger, fear]. *)
Theorem map_action_to_emotions_ranks_by_initiative h :
  keys (self.initiative_map h) = emotions ->
  ranking h ≡ₚ items (self.initiative_map h) /\
  StronglySorted (ranks_before (items (self.initiative_map h))) (ranking h) /\
  map_action_to_emotions 0 h = (Ok (take 1 (ranking h)).*1, h) /\
  map_action_to_emotions 1 h = (Ok (take 2 (ranking h)).*1, h) /\
  map_action_to_emotions 2 h = (Ok (take 3 (ranking h)).*1, h) /\
  (same_items (self.initiative_map h) example_initiative ->
   map_action_to_emotions 0 h = (Ok ["joy"%string], h) /\
   map_action_to_emotions 1 h = (Ok ["joy"; "anger"]%string, h) /\
   map_action_to_emotions 2 h = (Ok ["joy"; "anger"; "fear"]%string, h)).
Proof.
  intros Hk.
  assert (Hlen : 3 <= length (self.initiative_map h)).
  { rewrite <- (length_fmap fst). fold (keys (self.initiative_map h)).
    rewrite Hk. cbn. lia. }
  split; [apply ranking_Permutation|].
  split; [apply ranking_sorted|].
  repeat split; try by apply map_action_to_emotions_run.
  all: rewrite map_action_to_emotions_run by done; cbn [emotions_wanted Z.eqb].
  all: by rewrite fmap_take, ranking_example.
Qed.


End RankingFacts.

(** ** The training step *)

Section ReplayFacts.
Context `{External}.
Import Py.
Implicit Types (h : self.t) (experience : Transition).

Lemma bind_run {A B} (m : M A) (f : A -> M B) h :
  (m ≫= f) h =
    match m h with
    | (Ok a, h') => f a h'
    | (Raise e, h') => (Raise e, h')
    end.
Proof. reflexivity. Qed.

Lemma for_each_cons {A} (x : A) (l : list A) (body : A -> M unit) h :
  for_each (x :: l) body h =
    match body x h with
    | (Ok _, h') => for_each l body h'
    | (Raise e, h') => (Raise e, h')
    end.
Proof. reflexivity. Qed.

(** The loop of [replay] takes the experiences one after the other, each in
    the attributes the ones before it left. *)
Lemma for_each_lookup {A} (l : list A) (body : A -> M unit) (i : nat) (x : A) h :
  l !! i = Some x ->
  for_each l body h =
    match for_each (take i l) body h with
    | (Ok _, h_i) => (body x;; for_each (drop (S i) l) body) h_i
    | (Raise e, h_i) => (Raise e, h_i)
    end.
Proof.
  revert i h. induction l as [|y l IH]; intros i h Hi; [done|].
  destruct i as [|i]; cbn in Hi.
  - by injection Hi as ->.
  - cbn [take drop]. rewrite !for_each_cons.
    destruct (body y h) as [[[]|e] h1]; [|done].
    by apply IH.
Qed.

(** [replay_one], step by step: the target first, then the fit. *)
Lemma replay_one_run h experience :
  replay_one experience h =
    match bootstrapped_target (self.gamma h) (forward (self.model h)) experience with
    | Raise e => (Raise e, h)
    | Ok target => fit_toward target experience h
    end.
Proof.
  destruct experience as [[[[state action] reward] next_state] done].
  unfold replay_one, bootstrapped_target, fit_toward, tr_done, tr_reward,
    tr_next_state, tr_state, tr_action.
  run_method. cbn [fst snd].
  unfold result_bind.
  destruct done; cbn [negb].
  - destruct (Torch.FloatTensor state) as [state_tensor|]; [|done].
    destruct (forward (self.model h) state_tensor) as [prediction|]; [|done].
    by destruct (Torch.setitem prediction action reward).
  - destruct (Torch.FloatTensor next_state) as [next|]; [|done].
    destruct (forward (self.model h) next) as [q|]; [|done].
    destruct (Torch.max q) as [best|]; [|done].
    destruct (Torch.FloatTensor state) as [state_tensor|]; [|done].
    destruct (forward (self.model h) state_tensor) as [prediction|]; [|done].
    by destruct (Torch.setitem prediction action _).
Qed.

Lemma bootstrapped_target_terminal gamma score experience :
  tr_done experience = true ->
  bootstrapped_target gamma score experience = Ok (tr_reward experience).
Proof. unfold bootstrapped_target. by intros ->. Qed.

Lemma bootstrapped_target_bootstrap gamma score experience next q best :
  tr_done experience = false ->
  tr_next_state experience = Some next ->
  score next = Ok q ->
  Torch.max q = Ok best ->
  bootstrapped_target gamma score experience = Ok (tr_reward experience + gamma * best)%Q.
Proof.
  unfold bootstrapped_target. intros -> -> Hq Hb. cbn.
  unfold mbind, result_bind. by rewrite Hq, Hb.
Qed.

End ReplayFacts.

(** ** What every method preserves *)

Create HintDb preserves discriminated.

Section Preserves.
Context `{External}.
Import Py.
Implicit Types (h : self.t) (P : self.t -> Prop).

Lemma append_len {A} (d : deque A) (x : A) :
  len d <= maxlen d -> len (append d x) <= maxlen d /\ maxlen (append d x) = maxlen d.
Proof.
  unfold append, len. intros Hle.
  destruct (Nat.eqb_spec (maxlen d) 0) as [E|E]; [done|].
  destruct (Nat.ltb_spec (length (dq_items d)) (maxlen d)); cbn;
    rewrite length_app; cbn; [lia|].
  destruct (dq_items d); cbn in *; lia.
Qed.

Lemma preserves_ret {A} P (a : A) : preserves P (mret a).
Proof. by intros h Hh. Qed.

Lemma preserves_attr {A} P (f : self.t -> A) : preserves P (attr f).
Proof. by intros h Hh. Qed.

Lemma preserves_eval {A} P (r : result A) : preserves P (eval r).
Proof. by intros h Hh. Qed.

Lemma preserves_bind {A B} P (m : M A) (f : A -> M B) :
  preserves P m -> (forall a, preserves P (f a)) -> preserves P (m ≫= f).
Proof.
  intros Hm Hf h Hh. rewrite bind_run. specialize (Hm h Hh).
  destruct (m h) as [[a|e] h']; cbn in Hm; [by apply Hf | done].
Qed.

Lemma preserves_for_each {A} P (l : list A) (body : A -> M unit) :
  (forall x, preserves P (body x)) -> preserves P (for_each l body).
Proof.
  intros Hb. induction l as [|x l IH]; cbn [for_each]; [apply preserves_ret|].
  apply preserves_bind; [apply Hb | by intros _].
Qed.

Lemma consistent_set_epsilon v : preserves consistent (assign (self.set_epsilon v)).
Proof. by intros h Hh. Qed.

Lemma consistent_set_previous_state v :
  preserves consistent (assign (self.set_previous_state v)).
Proof. by intros h Hh. Qed.

Lemma consistent_set_model_optimizer v :
  preserves consistent (assign (self.set_model_optimizer v)).
Proof. by intros h Hh. Qed.

Lemma exploration_set_model_optimizer a b c v :
  preserves (exploration a b c) (assign (self.set_model_optimizer v)).
Proof. by intros h Hh. Qed.

Hint Resolve preserves_ret preserves_attr preserves_eval consistent_set_epsilon
  consistent_set_previous_state consistent_set_model_optimizer
  exploration_set_model_optimizer : preserves.

(** Bodies are chains of binds; the rules above take them apart. *)
Ltac preserves_chain :=
  repeat first
    [ solve [auto with preserves]
    | apply preserves_bind; [|intros ?]
    | apply preserves_for_each; intros ?
    | match goal with
      | |- preserves _ (let _ := _ in _) => cbv zeta
      | |- preserves _ (if ?b then _ else _) => destruct b
      | |- preserves _ (match ?x with _ => _ end) => destruct x
      end ].

Lemma preserves_get_current_state P : preserves P get_current_state.
Proof. unfold get_current_state. preserves_chain. Qed.

Lemma preserves_map_action_to_emotions P action :
  preserves P (map_action_to_emotions action).
Proof. unfold map_action_to_emotions. preserves_chain. Qed.

Lemma preserves_act P state rand r : preserves P (act state rand r).
Proof. unfold act. preserves_chain. Qed.

Hint Resolve preserves_get_current_state preserves_map_action_to_emotions
  preserves_act : preserves.

Lemma preserves_choose_emotions_based_on_initiative P rand r :
  preserves P (choose_emotions_based_on_initiative rand r).
Proof. unfold choose_emotions_based_on_initiative. preserves_chain. Qed.

Lemma remember_run previous_state action reward current_state done h :
  remember previous_state action reward current_state done h =
    (Ok tt,
     self.set_memory
       (append (self.memory h) (previous_state, action, reward, current_state, done)) h).
Proof. reflexivity. Qed.

Lemma consistent_remember previous_state action reward current_state done :
  preserves consistent (remember previous_state action reward current_state done).
Proof.
  intros h (Hi & Hnd & Hk & He & Hm & Hl).
  destruct (append_len (self.memory h)
              (previous_state, action, reward, current_state, done)) as [Hl' Hm']; [lia|].
  rewrite remember_run.
  repeat split; cbn -[append len]; try done; try apply He; lia.
Qed.

Lemma consistent_update_emotion_and_initiative e feedback :
  preserves consistent (update_emotion_and_initiative e feedback).
Proof.
  intros h (Hi & Hnd & Hk & He & Hm & Hl).
  destruct (dict_get (self.emotion_reward_map h) e) as [r|] eqn:Er.
  2: { unfold update_emotion_and_initiative, get_current_state, dict_getitem.
       run_method. cbn. by rewrite Er. }
  assert (is_Some (dict_get (self.initiative_map h) e)) as [i Ei].
  { apply elem_of_keys. rewrite <- Hk. apply elem_of_keys. by rewrite Er. }
  rewrite (update_emotion_and_initiative_run h e feedback r i Er Ei).
  repeat split; cbn -[keys dict_setitem]; try done.
  - rewrite keys_setitem_present; [done | by rewrite Ei].
  - rewrite !keys_setitem_present; [done | by rewrite Ei | by rewrite Er].
  - rewrite keys_setitem_present by (by rewrite Ei). apply He.
  - rewrite keys_setitem_present by (by rewrite Ei). apply He.
Qed.

Hint Resolve preserves_choose_emotions_based_on_initiative consistent_remember
  consistent_update_emotion_and_initiative : preserves.

Lemma consistent_replay_one experience : preserves consistent (replay_one experience).
Proof.
  destruct experience as [[[[state action] reward] next_state] done].
  unfold replay_one. preserves_chain.
Qed.

Lemma exploration_replay_one a b c experience :
  preserves (exploration a b c) (replay_one experience).
Proof.
  destruct experience as [[[[state action] reward] next_state] done].
  unfold replay_one. preserves_chain.
Qed.

Hint Resolve consistent_replay_one exploration_replay_one : preserves.

Lemma consistent_replay batch_size draws : preserves consistent (replay batch_size draws).
Proof. unfold replay. preserves_chain. Qed.

Lemma consistent_learn_from_inference feedback rand r :
  preserves consistent (learn_from_inference feedback rand r).
Proof. unfold learn_from_inference. preserves_chain. Qed.

Hint Resolve consistent_replay consistent_learn_from_inference : preserves.

Lemma consistent_get_llm_response_emotion e rand1 r1 feedback rand2 r2 :
  preserves consistent (get_llm_response_emotion e rand1 r1 feedback rand2 r2).
Proof. unfold get_llm_response_emotion. preserves_chain. Qed.

Lemma consistent_init_attrs args : consistent (init_attrs args).
Proof.
  repeat split; cbn; try done.
  - apply dict_comprehension_NoDup.
  - by intros ?%elem_of_dict_comprehension.
  - intros ?. by apply elem_of_dict_comprehension.
  - lia.
Qed.

Lemma consistent_after c h : consistent h -> consistent (after c h).
Proof.
  destruct c; cbn [after];
    [ apply preserves_get_current_state
    | apply preserves_attr
    | apply preserves_map_action_to_emotions
    | apply preserves_act
    | apply preserves_choose_emotions_based_on_initiative
    | apply consistent_remember
    | apply consistent_update_emotion_and_initiative
    | apply consistent_learn_from_inference
    | apply consistent_replay
    | apply consistent_get_llm_response_emotion ].
Qed.

(** Every history of calls on a constructed handler leaves it consistent. *)
Lemma consistent_after_all cs h : consistent h -> consistent (after_all cs h).
Proof.
  revert h. induction cs as [|c cs IH]; intros h Hh; cbn; [done|].
  by apply IH, consistent_after.
Qed.

(** [act] and [map_action_to_emotions] leave the attributes as they are. *)
Lemma act_attrs state rand r h : (act state rand r h).2 = h.
Proof. by apply (preserves_act (fun h' => h' = h)). Qed.

Lemma map_action_to_emotions_attrs action h : (map_action_to_emotions action h).2 = h.
Proof. by apply (preserves_map_action_to_emotions (fun h' => h' = h)). Qed.

End Preserves.

(** ** The replay buffer *)

Section DequeFacts.
Import Py.
Context {A : Type}.
Implicit Types (d : deque A) (x : A) (l : list A).

Lemma append_items d x :
  0 < maxlen d -> len d <= maxlen d ->
  dq_items (append d x) = drop (S (len d) - maxlen d) (dq_items d ++ [x]).
Proof.
  unfold append, len. intros Hpos Hle.
  destruct (Nat.eqb_spec (maxlen d) 0); [lia|].
  destruct (Nat.ltb_spec (length (dq_items d)) (maxlen d)); cbn.
  - by replace (S (length (dq_items d)) - maxlen d) with 0 by lia.
  - replace (S (length (dq_items d)) - maxlen d) with 1 by lia.
    destruct (dq_items d); cbn in *; [lia|]. by rewrite drop_0.
Qed.

(** Appending [l] item by item leaves the last [maxlen] items of what was
    there followed by [l]. *)
Lemma foldl_append_items l d :
  0 < maxlen d -> len d <= maxlen d ->
  dq_items (foldl append d l) = drop (len d + length l - maxlen d) (dq_items d ++ l).
Proof.
  revert d. induction l as [|x l IH]; intros d Hpos Hle; cbn [foldl].
  - rewrite app_nil_r. cbn. by replace (len d + 0 - maxlen d) with 0 by lia.
  - destruct (append_len d x Hle) as [Hle' Hm].
    rewrite IH by lia. rewrite Hm, append_items by done.
    assert (Hk : S (len d) - maxlen d <= length (dq_items d ++ [x])).
    { rewrite length_app. unfold len. cbn. lia. }
    unfold len at 1. rewrite append_items by done.
    rewrite length_drop, length_app. cbn [length].
    rewrite <- drop_app_le by done.
    rewrite drop_drop, <- app_assoc. cbn [app].
    f_equal. unfold len in *. lia.
Qed.

End DequeFacts.

Section MemoryFacts.
Context `{External}.
Import Py.
Implicit Types (h : self.t) (t : Transition).

Lemma after_push t h :
  after (push t) h = self.set_memory (append (self.memory h) t) h.
Proof. by destruct t as [[[[? ?] ?] ?] ?]. Qed.

Lemma after_all_cons c cs h : after_all (c :: cs) h = after_all cs (after c h).
Proof. reflexivity. Qed.

Lemma memory_after_pushes (ts : list Transition) h :
  self.memory (after_all (push <$> ts) h) = foldl append (self.memory h) ts.
Proof.
  revert h. induction ts as [|t ts IH]; intros h; [done|].
  by rewrite fmap_cons, after_all_cons, IH, after_push.
Qed.

(** C8. From construction on, whatever is called, [memory] never holds more
    than 4000 experiences.  After any sequence of pushes it holds the last
    4000 of them in the order they were pushed; so after 4001 pushes the
    first experience is gone and the 4000 after it are there, in order; and
    a push on a full [memory] drops exactly the oldest experience. *)
Theorem memory_is_bounded_fifo (args : Args) :
  (forall cs, len (self.memory (after_all cs (init_attrs args))) <= 4000) /\
  (forall ts : list Transition,
     dq_items (self.memory (after_all (push <$> ts) (init_attrs args))) =
       drop (length ts - 4000) ts) /\
  (forall (oldest : Transition) (rest : list Transition),
     length rest = 4000 ->
     dq_items (self.memory (after_all (push <$> oldest :: rest) (init_attrs args))) = rest) /\
  (forall cs t,
     let h := after_all cs (init_attrs args) in
     len (self.memory h) = 4000 ->
     dq_items (self.memory (after (push t) h)) = tail (dq_items (self.memory h)) ++ [t]).
Proof.
  assert (Hts : forall ts : list Transition,
            dq_items (self.memory (after_all (push <$> ts) (init_attrs args))) =
              drop (length ts - 4000) ts).
  { intros ts. rewrite memory_after_pushes.
    change (self.memory (init_attrs args)) with (@deque_new Transition 4000).
    rewrite foldl_append_items; unfold deque_new, len; cbn [maxlen dq_items length app]; [done|lia..]. }
  split; [|split; [done|split]].
  - intros cs. by apply (consistent_after_all cs), consistent_init_attrs.
  - intros oldest rest Hlen. rewrite Hts. cbn [length].
    rewrite Hlen. by replace (4001 - 4000) with 1 by lia.
  - intros cs t h Hfull. rewrite after_push. cbn [self.memory self.set_memory].
    destruct (consistent_after_all cs _ (consistent_init_attrs args))
      as (_ & _ & _ & _ & Hm & _). fold h in Hm.
    rewrite append_items by lia. rewrite Hfull, Hm.
    replace (4001 - 4000) with 1 by lia.
    unfold len in Hfull. destruct (dq_items (self.memory h)); [done|].
    cbn. by rewrite drop_0.
Qed.

End MemoryFacts.

(** ** The singleton *)

Section SingletonFacts.
Context `{External}.
Import Py.
Implicit Types (rt : Runtime) (h : self.t) (args : Args).

(** The first construction allocates the instance and initialises it. *)
Lemma first_construction args :
  EmotionHandler start args =
    ({| heap := [Attrs (init_attrs args)]; _instance := Some 0 |}, 0).
Proof. reflexivity. Qed.

(** A construction when the class already holds an initialised instance
    returns that instance and changes nothing. *)
Lemma construction_of_initialized rt a h args :
  _instance rt = Some a ->
  heap rt !! a = Some (Attrs h) ->
  self._initialized h = true ->
  EmotionHandler rt args = (rt, a).
Proof.
  intros Hi Ha Hinit. unfold EmotionHandler, __new__. rewrite Hi, Ha.
  unfold __init__. rewrite Hinit, list_insert_id by done.
  by destruct rt.
Qed.

(** C9. After the first construction, and after whatever calls were made on
    the instance since, a construction with any arguments returns the
    address of the same instance and leaves the runtime as it is: every
    attribute of the instance, among them the hyperparameters, the two
    dictionaries, [memory], the network and the optimizer, keeps its value,
    and the arguments of the later construction are not used. *)
Theorem second_construction_changes_nothing (args1 args2 : Args) (cs : list Call) :
  let rt1 := (EmotionHandler start args1).1 in
  let a1 := (EmotionHandler start args1).2 in
  let rt2 := after_all_at a1 cs rt1 in
  heap rt1 !! a1 = Some (Attrs (init_attrs args1)) /\
  EmotionHandler rt1 args2 = (rt1, a1) /\
  heap rt2 !! a1 = Some (Attrs (after_all cs (init_attrs args1))) /\
  EmotionHandler rt2 args2 = (rt2, a1).
Proof.
  rewrite first_construction. cbn [fst snd].
  unfold after_all_at. cbn [heap _instance lookup list_lookup insert list_insert].
  split; [done|].
  split; [by eapply construction_of_initialized|].
  split; [done|].
  eapply construction_of_initialized; [done..|].
  by apply (consistent_after_all cs), consistent_init_attrs.
Qed.

End SingletonFacts.

(** ** Exploration *)

Section ExplorationFacts.
Context `{External}.
Import Py.
Implicit Types (h : self.t).

(** [act] explores when the draw is at most [epsilon], the draw 0 included. *)
Lemma act_explores state rand r h :
  (rand <= self.epsilon h)%Q ->
  act state rand r h = (randrange (self.action_size h) r, h).
Proof.
  intros Hle. unfold act. run_method.
  by rewrite (proj2 (Qle_bool_iff _ _) Hle).
Qed.

(** [act] exploits when the draw is above [epsilon]. *)
Lemma act_exploits state rand r h :
  (self.epsilon h < rand)%Q ->
  act state rand r h =
    (state_tensor ← Torch.FloatTensor state;
     act_values ← forward (self.model h) state_tensor;
     Torch.argmax act_values, h).
Proof.
  intros Hlt. unfold act. run_method.
  destruct (Qle_bool rand (self.epsilon h)) eqn:E.
  { apply Qle_bool_iff in E. by apply Qlt_not_le in Hlt. }
  unfold result_bind. by repeat case_match.
Qed.

(** [replay], step by step. *)
Lemma replay_run batch_size draws h :
  replay batch_size draws h =
    if (Z.of_nat (len (self.memory h)) <? batch_size)%Z then (Ok tt, h)
    else
      match sample (dq_items (self.memory h)) batch_size draws with
      | Raise e => (Raise e, h)
      | Ok minibatch =>
          match for_each minibatch replay_one h with
          | (Raise e, h1) => (Raise e, h1)
          | (Ok _, h1) =>
              (Ok tt,
               if Qgt_bool (self.epsilon h1) (self.epsilon_min h1)
               then self.set_epsilon (self.epsilon h1 * self.epsilon_decay h1)%Q h1
               else h1)
          end
      end.
Proof.
  unfold replay. run_method.
  destruct (_ <? _)%Z; [done|].
  destruct (sample _ _ _) as [minibatch|]; [|done].
  destruct (for_each minibatch replay_one h) as [[[]|e] h1]; [|done].
  by destruct (Qgt_bool _ _).
Qed.

(** A call of [replay] that is not skipped and returns has applied the decay
    rule to [epsilon] exactly once, whatever the size of the minibatch. *)
Lemma replay_decays_once batch_size draws h :
  (batch_size <= Z.of_nat (len (self.memory h)))%Z ->
  (replay batch_size draws h).1 = Ok tt ->
  exploration
    (decay (self.epsilon h) (self.epsilon_min h) (self.epsilon_decay h))
    (self.epsilon_min h) (self.epsilon_decay h) (replay batch_size draws h).2.
Proof.
  intros Hge. rewrite replay_run, (proj2 (Z.ltb_ge _ _) Hge).
  destruct (sample _ _ _) as [minibatch|]; [|done].
  pose proof (preserves_for_each _ minibatch replay_one
    (exploration_replay_one (self.epsilon h) (self.epsilon_min h) (self.epsilon_decay h))
    h) as Hloop.
  destruct (for_each minibatch replay_one h) as [[[]|e] h1]; [|done].
  destruct Hloop as (He & Hm & Hd); [done|]. cbn [snd] in He, Hm, Hd.
  intros _. unfold decay. cbn [snd]. rewrite He, Hm, Hd.
  destruct (Qgt_bool _ _); repeat split; cbn; congruence.
Qed.

End ExplorationFacts.

(** ** The target of the training step *)

Section TargetFacts.
Context `{External}.
Import Py.
Implicit Types (h : self.t) (experience : Transition).

Lemma max_fold_greatest (t : list Q) (v : Q) :
  let m := foldl (fun m w => if Qle_bool w m then m else w) v t in
  m ∈ v :: t /\ (v <= m)%Q /\ Forall (fun w => (w <= m)%Q) t.
Proof.
  revert v. induction t as [|w t IH]; intros v; cbn.
  - split; [by left|]. split; [apply Qle_refl|constructor].
  - destruct (Qle_bool w v) eqn:E.
    + apply Qle_bool_iff in E. destruct (IH v) as (Hin & Hv & Hall).
      split; [|split; [done|]].
      * apply elem_of_cons in Hin as [->|Hin]; [by left|]. right. by right.
      * constructor; [|done]. by apply Qle_trans with v.
    + assert (Hvw : (v <= w)%Q).
      { apply Qlt_le_weak, Qnot_le_lt. intros Hle. apply Qle_bool_iff in Hle. congruence. }
      destruct (IH w) as (Hin & Hw & Hall).
      split; [by right|]. split; [by apply Qle_trans with w|]. by constructor.
Qed.

(** [torch.max] returns one of the values of the tensor, and the greatest. *)
Lemma Torch_max_greatest (q : Torch.tensor) (best : Q) :
  Torch.max q = Ok best -> greatest q best.
Proof.
  destruct q as [|v t]; [done|]. cbn. intros [= <-].
  destruct (max_fold_greatest t v) as (Hin & Hv & Hall).
  split; [done|]. by constructor.
Qed.

Lemma bootstrapped_target_spec gamma score experience target :
  bootstrapped_target gamma score experience = Ok target ->
  is_bootstrapped_target gamma score experience target.
Proof.
  unfold bootstrapped_target, is_bootstrapped_target.
  destruct (tr_done experience); [intros [= <-]; reflexivity|].
  unfold mbind, result_bind, Torch.FloatTensor.
  destruct (tr_next_state experience) as [next|]; [|done].
  destruct (score next) as [q|] eqn:Eq; [|done].
  destruct (Torch.max q) as [best|] eqn:Eb; [|done].
  intros [= <-]. exists next, q, best.
  split; [reflexivity|]. split; [exact Eq|]. split; [|reflexivity].
  by apply Torch_max_greatest.
Qed.

(** What a returning pass of the loop body has done. *)
Lemma replay_one_returns experience h h' :
  replay_one experience h = (Ok tt, h') ->
  exists target state_tensor prediction target_f,
    is_bootstrapped_target (self.gamma h) (forward (self.model h)) experience target /\
    Torch.FloatTensor (tr_state experience) = Ok state_tensor /\
    forward (self.model h) state_tensor = Ok prediction /\
    Torch.setitem prediction (tr_action experience) target = Ok target_f /\
    h' = self.set_model_optimizer
           (gradient_step (self.loss_fn h) (self.model h) (self.optimizer h)
              state_tensor target_f prediction) h.
Proof.
  rewrite replay_one_run.
  destruct (bootstrapped_target _ _ _) as [target|] eqn:Et; [|done].
  apply bootstrapped_target_spec in Et. unfold fit_toward.
  destruct (Torch.FloatTensor _) as [state_tensor|] eqn:Ex; [|done].
  destruct (forward _ state_tensor) as [prediction|] eqn:Ep; [|done].
  destruct (Torch.setitem _ _ _) as [target_f|] eqn:Es; [|done].
  intros [= <-]. by exists target, state_tensor, prediction, target_f.
Qed.

(** The loop body returns whenever its reads succeed. *)
Lemma replay_one_total experience h state_tensor prediction :
  (tr_done experience = true \/
   exists next q, tr_next_state experience = Some next /\
                  forward (self.model h) next = Ok q /\ q <> []) ->
  Torch.FloatTensor (tr_state experience) = Ok state_tensor ->
  forward (self.model h) state_tensor = Ok prediction ->
  (- Z.of_nat (length prediction) <= tr_action experience < Z.of_nat (length prediction))%Z ->
  exists h', replay_one experience h = (Ok tt, h').
Proof.
  intros Htarget Hs Hp Ha. rewrite replay_one_run.
  assert (exists target, bootstrapped_target (self.gamma h) (forward (self.model h))
                           experience = Ok target) as [target ->].
  { unfold bootstrapped_target.
    destruct Htarget as [->|(next & q & -> & Hq & Hne)]; [by eexists|].
    destruct (tr_done experience); [by eexists|].
    cbn. unfold mbind, result_bind. rewrite Hq.
    destruct q as [|v t]; [done|]. by eexists. }
  unfold fit_toward. rewrite Hs, Hp. unfold Torch.setitem. cbv zeta.
  destruct (Z.leb_spec 0 (tr_action experience)),
    (Z.ltb_spec (tr_action experience) (Z.of_nat (length prediction))),
    (Z.leb_spec (- Z.of_nat (length prediction)) (tr_action experience)),
    (Z.ltb_spec (tr_action experience) 0); cbn [andb];
    first [by eexists | lia].
Qed.

(** C3. In a training step that is not skipped, every experience of the
    sampled minibatch goes through the loop body in the attributes [h_i]
    left by the experiences before it.  When the body returns there, the
    target it has trained toward is the bootstrapped target of the
    specification: the reward when the experience is terminal, and otherwise
    the reward plus [gamma] times the greatest of the scores the network of
    [h_i] gives the next state; the prediction the target is set into, at
    the slot of the action, comes from that same network of [h_i].  And the
    body does return whenever its reads succeed. *)
Theorem replay_target_is_bootstrapped h (batch_size : Z) draws
    (minibatch : list Transition) (i : nat) experience h_i :
  (batch_size <= Z.of_nat (len (self.memory h)))%Z ->
  sample (dq_items (self.memory h)) batch_size draws = Ok minibatch ->
  minibatch !! i = Some experience ->
  for_each (take i minibatch) replay_one h = (Ok tt, h_i) ->
  replay batch_size draws h =
    match replay_one experience h_i with
    | (Raise e, h') => (Raise e, h')
    | (Ok _, h') =>
        match for_each (drop (S i) minibatch) replay_one h' with
        | (Raise e, h1) => (Raise e, h1)
        | (Ok _, h1) =>
            (Ok tt,
             if Qgt_bool (self.epsilon h1) (self.epsilon_min h1)
             then self.set_epsilon (self.epsilon h1 * self.epsilon_decay h1)%Q h1
             else h1)
        end
    end /\
  (forall h',
     replay_one experience h_i = (Ok tt, h') ->
     exists target state_tensor prediction target_f,
       is_bootstrapped_target (self.gamma h_i) (forward (self.model h_i)) experience target /\
       Torch.FloatTensor (tr_state experience) = Ok state_tensor /\
       forward (self.model h_i) state_tensor = Ok prediction /\
       Torch.setitem prediction (tr_action experience) target = Ok target_f /\
       h' = self.set_model_optimizer
              (gradient_step (self.loss_fn h_i) (self.model h_i) (self.optimizer h_i)
                 state_tensor target_f prediction) h_i) /\
  (forall state_tensor prediction,
     (tr_done experience = true \/
      exists next q, tr_next_state experience = Some next /\
                     forward (self.model h_i) next = Ok q /\ q <> []) ->
     Torch.FloatTensor (tr_state experience) = Ok state_tensor ->
     forward (self.model h_i) state_tensor = Ok prediction ->
     (- Z.of_nat (length prediction) <= tr_action experience
        < Z.of_nat (length prediction))%Z ->
     exists h', replay_one experience h_i = (Ok tt, h')).
Proof.
  intros Hge Hsample Hi Hbefore.
  split; [|split; [apply replay_one_returns | apply replay_one_total]].
  rewrite replay_run, (proj2 (Z.ltb_ge _ _) Hge), Hsample.
  rewrite (for_each_lookup minibatch replay_one i experience h Hi), Hbefore.
  rewrite bind_run.
  by destruct (replay_one experience h_i) as [[[]|e] h'].
Qed.

End TargetFacts.

(** ** The learning cycle *)

Section LearningFacts.
Context `{External}.
Import Py.
Implicit Types (h : self.t).

Lemma update_emotion_and_initiative_inv e feedback h h1 :
  update_emotion_and_initiative e feedback h = (Ok tt, h1) ->
  self.previous_state h1 = Some (state_vector h) /\
  self.memory h1 = self.memory h /\
  exists r i,
    dict_get (self.emotion_reward_map h) e = Some r /\
    dict_get (self.initiative_map h) e = Some i /\
    self.emotion_reward_map h1 = dict_setitem (self.emotion_reward_map h) e (r + feedback)%Q /\
    self.initiative_map h1 = dict_setitem (self.initiative_map h) e (i + 0.1)%Q.
Proof.
  destruct (dict_get (self.emotion_reward_map h) e) as [r|] eqn:Er;
    [destruct (dict_get (self.initiative_map h) e) as [i|] eqn:Ei|].
  - rewrite (update_emotion_and_initiative_run h e feedback r i Er Ei).
    intros [= <-]. split; [reflexivity|]. split; [reflexivity|]. by exists r, i.
  - unfold update_emotion_and_initiative, get_current_state, dict_getitem.
    run_method. cbn. by rewrite Er, Ei.
  - unfold update_emotion_and_initiative, get_current_state, dict_getitem.
    run_method. cbn. by rewrite Er.
Qed.

(** What a call of [learn_from_inference] that returns has appended to
    [memory]: in the first slot the state after the statistics update, in the
    fourth the state before it. *)
Lemma learn_from_inference_pushes feedback rand r h h' :
  learn_from_inference feedback rand r h = (Ok tt, h') ->
  exists h1 action,
    update_emotion_and_initiative (self.current_user_emotion h) feedback h = (Ok tt, h1) /\
    act (Some (state_vector h1)) rand r h1 = (Ok action, h1) /\
    h' = self.set_memory
           (append (self.memory h)
              (Some (state_vector h1), action, feedback, Some (state_vector h), false)) h1.
Proof.
  unfold learn_from_inference. rewrite bind_run. cbn [attr].
  rewrite bind_run.
  destruct (update_emotion_and_initiative _ feedback h) as [[[]|e] h1] eqn:Eu; [|done].
  destruct (update_emotion_and_initiative_inv _ _ _ _ Eu) as (Hp & Hm & _).
  rewrite bind_run, get_current_state_run. fold (state_vector h1).
  rewrite bind_run.
  pose proof (act_attrs (Some (state_vector h1)) rand r h1) as Ha.
  destruct (act (Some (state_vector h1)) rand r h1) as [[action|e] h2] eqn:Ea; [|done].
  cbn in Ha. subst h2.
  rewrite bind_run. cbn [attr]. rewrite remember_run, Hp, Hm.
  intros [= <-]. by exists h1, action.
Qed.

End LearningFacts.

(** ** Runs on concrete handlers *)

Import Py.

(** C1. A run of [learn_from_inference] on the fresh handler, with feedback
    0.5: the call returns, and the experience it appends has in its [state]
    slot the state vector read after the statistics update and in its
    [next_state] slot the one read before the update, with the flag false;
    the tuple (previous state, action, feedback, current state, false) is
    not what is stored. *)
Theorem learn_from_inference_swaps_the_states :
  let before := replicate 14 1%Q in
  let now := [1; 1; 1; 1; 1.5; 1; 1; 1; 1; 1; 1; 1.1; 1; 1]%Q in
  let h' := (learn_from_inference 0.5 0.3 7 fresh).2 in
  state_vector fresh = before /\
  (learn_from_inference 0.5 0.3 7 fresh).1 = Ok tt /\
  state_vector h' = now /\
  dq_items (self.memory h') = [(Some now, 1%Z, 0.5%Q, Some before, false)] /\
  (tr_state <$> dq_items (self.memory h')) = [Some now] /\
  (tr_next_state <$> dq_items (self.memory h')) = [Some before] /\
  dq_items (self.memory h') <> [(Some before, 1%Z, 0.5%Q, Some now, false)].
Proof.
  repeat split; try (vm_compute; reflexivity).
  intros Heq. vm_compute in Heq. discriminate Heq.
Qed.

(** [replay_one] does not look at [epsilon]. *)
Lemma replay_one_set_epsilon `{External} (e : Q) (experience : Transition) (h : self.t) :
  replay_one experience (self.set_epsilon e h) =
    ((replay_one experience h).1, self.set_epsilon e (replay_one experience h).2).
Proof.
  rewrite !replay_one_run.
  cbn [self.gamma self.model self.set_epsilon].
  destruct (bootstrapped_target _ _ _) as [target|]; [|done].
  unfold fit_toward. cbn [self.model self.optimizer self.loss_fn self.set_epsilon].
  by repeat case_match.
Qed.

(** On the handler with one experience, a training update [replay(1)] goes
    through and changes [epsilon] only, by the decay rule. *)
Lemma replay_one_experience (e : Q) :
  replay 1 [0] (self.set_epsilon e one_experience) =
    (Ok tt, self.set_epsilon (decay e 0.01 0.995) one_experience).
Proof.
  assert (exists t1,
             dq_items (self.memory one_experience) = [t1] /\
             replay_one t1 one_experience = (Ok tt, one_experience))
    as (t1 & Hmem & Hrun).
  { eexists. split; vm_compute; reflexivity. }
  assert (Hmin : self.epsilon_min one_experience = 0.01%Q) by (vm_compute; reflexivity).
  assert (Hdecay : self.epsilon_decay one_experience = 0.995%Q) by (vm_compute; reflexivity).
  rewrite replay_run.
  cbn [self.memory self.set_epsilon]. unfold len. rewrite Hmem.
  change (Z.of_nat (length [t1]) <? 1)%Z with false.
  change (sample [t1] 1 [0]) with (Ok [t1]). cbv iota.
  rewrite for_each_cons, replay_one_set_epsilon, Hrun.
  cbn [fst snd for_each mret M_ret self.epsilon self.epsilon_min self.epsilon_decay
       self.set_epsilon].
  rewrite Hmin, Hdecay. unfold decay.
  by destruct (Qgt_bool e 0.01).
Qed.

Lemma replays_one_experience (n : nat) (e : Q) :
  after_all (replicate n (Replay 1 [0])) (self.set_epsilon e one_experience) =
    self.set_epsilon (Nat.iter n (fun e => decay e 0.01 0.995) e) one_experience.
Proof.
  revert e. induction n as [|n IH]; intros e; [done|].
  cbn [replicate]. rewrite after_all_cons. cbn [after].
  rewrite replay_one_experience. cbn [snd]. rewrite IH.
  by rewrite Nat.iter_succ_r.
Qed.

Lemma Qgt_bool_lt (x y : Q) : Qgt_bool x y = true -> (y < x)%Q.
Proof.
  unfold Qgt_bool. intros Hb. apply Qnot_le_lt. intros Hle.
  apply Qle_bool_iff in Hle. rewrite Hle in Hb. discriminate Hb.
Qed.

(** C5. A run from the fresh handler: one [learn_from_inference] puts an
    experience in [memory], then training updates [replay(1)], none of them
    skipped.  [epsilon] starts at 1.0; after 918 updates it is still above
    [epsilon_min] = 0.01, so the next update multiplies it once more, and
    after 919 updates it is below [epsilon_min]. *)
Theorem epsilon_falls_below_epsilon_min :
  let h1 := after (LearnFromInference 0.5 0.3 7) fresh in
  let h918 := after_all (replicate 918 (Replay 1 [0])) h1 in
  let h919 := after (Replay 1 [0]) h918 in
  self.epsilon h1 = 1.0%Q /\
  self.epsilon_min h1 = 0.01%Q /\
  self.epsilon_decay h1 = 0.995%Q /\
  len (self.memory h1) = 1 /\
  (0.01 < self.epsilon h918)%Q /\
  self.epsilon h919 = (self.epsilon h918 * 0.995)%Q /\
  (self.epsilon h919 < 0.01)%Q.
Proof.
  intros h1 h918 h919. fold one_experience in h1.
  assert (Hstart : h1 = self.set_epsilon 1.0 one_experience) by (vm_compute; reflexivity).
  set (e918 := Nat.iter 918 (fun e => decay e 0.01 0.995) 1.0%Q).
  assert (H918 : h918 = self.set_epsilon e918 one_experience).
  { unfold h918. rewrite Hstart, replays_one_experience. reflexivity. }
  assert (H919 : h919 = self.set_epsilon (decay e918 0.01 0.995) one_experience).
  { unfold h919. rewrite H918. cbn [after]. rewrite replay_one_experience. reflexivity. }
  assert (Hb : (fun e => Qgt_bool e 0.01 && Qgt_bool 0.01 (e * 0.995)) e918 = true).
  { vm_compute. reflexivity. }
  cbv beta in Hb. apply andb_prop in Hb as [Habove Hbelow].
  apply Qgt_bool_lt in Habove, Hbelow.
  assert (Hstep : decay e918 0.01 0.995 = (e918 * 0.995)%Q).
  { unfold decay, Qgt_bool. destruct (Qle_bool e918 0.01) eqn:E; [|reflexivity].
    apply Qle_bool_iff in E. apply Qlt_not_le in Habove. contradiction. }
  split; [vm_compute; reflexivity|].
  split; [vm_compute; reflexivity|].
  split; [vm_compute; reflexivity|].
  split; [vm_compute; reflexivity|].
  rewrite H919, H918. cbn [self.epsilon self.set_epsilon]. rewrite Hstep.
  split; [exact Habove|]. split; [reflexivity | exact Hbelow].
Qed.

(** C6. A run of [act] on the handler constructed with [epsilon] 0, whose
    network scores the actions 3, 1 and 2, so that the greatest score is
    that of action 0: when [np.random.rand()] returns 0, [act] returns the
    action drawn by [random.randrange], 1 or 2, and not action 0. *)
Theorem act_explores_with_epsilon_zero :
  let state := state_vector greedy in
  self.epsilon greedy = 0%Q /\
  forward (self.model greedy) state = Ok [3; 1; 2]%Q /\
  Torch.argmax [3; 1; 2]%Q = Ok 0%Z /\
  (act (Some state) 0 1 greedy).1 = Ok 1%Z /\
  (act (Some state) 0 2 greedy).1 = Ok 2%Z /\
  (act (Some state) 0.5 2 greedy).1 = Ok 0%Z.
Proof. repeat split; vm_compute; reflexivity. Qed.

(** *** Instances of the general statements *)

Lemma map_action_to_emotions_ranks_by_initiative_witness :
  keys (self.initiative_map example_handler) = emotions /\
  map_action_to_emotions 0 example_handler = (Ok ["joy"%string], example_handler) /\
  map_action_to_emotions 1 example_handler = (Ok ["joy"; "anger"]%string, example_handler) /\
  map_action_to_emotions 2 example_handler =
    (Ok ["joy"; "anger"; "fear"]%string, example_handler).
Proof.
  split; [reflexivity|].
  destruct (@map_action_to_emotions_ranks_by_initiative idle example_handler)
    as (_ & _ & _ & _ & _ & Hex); [reflexivity|].
  apply Hex. unfold same_items. cbn.
  repeat constructor.
Defined.

Lemma replay_target_is_bootstrapped_witness :
  let t1 : Transition :=
    (Some [1; 1; 1; 1; 1.5; 1; 1; 1; 1; 1; 1; 1.1; 1; 1]%Q, 0%Z, 0.5%Q,
     Some (replicate 14 1%Q), false) in
  (1 <= Z.of_nat (len (self.memory greedy_one_experience)))%Z /\
  sample (dq_items (self.memory greedy_one_experience)) 1 [0] = Ok [t1] /\
  [t1] !! 0 = Some t1 /\
  for_each (take 0 [t1]) replay_one greedy_one_experience = (Ok tt, greedy_one_experience) /\
  exists h' target,
    replay_one t1 greedy_one_experience = (Ok tt, h') /\
    is_bootstrapped_target (self.gamma greedy_one_experience)
      (forward (self.model greedy_one_experience)) t1 target /\
    target == 0.5 + 0.95 * 3.
Proof.
  intros t1.
  assert (H1 : (1 <= Z.of_nat (len (self.memory greedy_one_experience)))%Z)
    by (vm_compute; discriminate).
  assert (H2 : sample (dq_items (self.memory greedy_one_experience)) 1 [0] = Ok [t1])
    by (vm_compute; reflexivity).
  assert (H3 : [t1] !! 0 = Some t1) by reflexivity.
  assert (H4 : for_each (take 0 [t1]) replay_one greedy_one_experience =
                 (Ok tt, greedy_one_experience)) by reflexivity.
  split; [exact H1|]. split; [exact H2|]. split; [exact H3|]. split; [exact H4|].
  destruct (@replay_target_is_bootstrapped idle greedy_one_experience 1 [0] [t1] 0 t1
              greedy_one_experience H1 H2 H3 H4) as (_ & Hreturns & _).
  assert (Hrun : replay_one t1 greedy_one_experience = (Ok tt, greedy_one_experience))
    by (vm_compute; reflexivity).
  destruct (Hreturns _ Hrun) as (target & st & p & tf & Htarget & _ & _ & Hset & _).
  exists greedy_one_experience, target. split; [exact Hrun|]. split; [exact Htarget|].
  unfold is_bootstrapped_target in Htarget. cbn [tr_done t1 snd] in Htarget.
  destruct Htarget as (next & q & best & Hnext & Hq & [Hin Hall] & ->).
  injection Hnext as <-.
  assert (Hscores : forward (self.model greedy_one_experience) (replicate 14 1%Q) =
                      Ok [3; 1; 2]%Q) by (vm_compute; reflexivity).
  assert (Hqs : Ok q = Ok [3; 1; 2]%Q) by (etrans; [symmetry; exact Hq | exact Hscores]).
  injection Hqs as ->.
  assert (Hbest : best == 3).
  { apply Qle_antisym.
    - apply elem_of_cons in Hin as [->|Hin]; [apply Qle_refl|].
      apply elem_of_cons in Hin as [->|Hin]; [by vm_compute|].
      apply list_elem_of_singleton in Hin as ->. by vm_compute.
    - by apply Forall_cons in Hall as [H3' _]. }
  cbn [tr_reward fst snd].
  change (self.gamma greedy_one_experience) with 0.95%Q. by rewrite Hbest.
Defined.

Lemma replay_skips_short_memory_witness :
  (Z.of_nat (len (self.memory fresh)) < 32)%Z /\
  replay 32 [] fresh = (Ok tt, fresh).
Proof.
  split; [reflexivity|].
  apply (@replay_skips_short_memory idle fresh 32 []). reflexivity.
Defined.


Lemma memory_is_bounded_fifo_witness :
  let oldest : Transition := (None, 0%Z, 0%Q, None, false) in
  let later : Transition := (None, 1%Z, 1%Q, None, true) in
  dq_items (self.memory
              (after_all (push <$> oldest :: replicate 4000 later)
                 (@init_attrs idle (default_args zeros)))) =
    replicate 4000 later.
Proof.
  intros oldest later.
  apply (proj1 (proj2 (proj2 (@memory_is_bounded_fifo idle (default_args zeros))))).
  apply length_replicate.
Defined.

(** ** The statistics update in binary64 *)

Section Binary64Facts.
Import Py PrimFloat Binary64.
Implicit Types (s : stats) (e : string) (f : float).

(** The claim as stated fails in binary64.  On the fresh statistics,
    [update("joy", 1e-17)] returns, and the reward of joy is still 1.0: it
    has not grown by the feedback.  The initiative of joy has become the
    double 1.1, which is neither its old value plus one tenth nor its old
    value plus the double 0.1. *)
Lemma exact_increments_fail :
  let s' := (update_emotion_and_initiative "joy" tiny fresh).2 in
  (update_emotion_and_initiative "joy" tiny fresh).1 = Ok tt /\
  dict_get (emotion_reward_map fresh) "joy" = Some 1%float /\
  dict_get (emotion_reward_map s') "joy" = Some 1%float /\
  value tiny = Some (6490371073168535 # 649037107316853453566312041152512)%Q /\
  ~ grew_by 1%float 1%float (6490371073168535 # 649037107316853453566312041152512) /\
  dict_get (initiative_map fresh) "joy" = Some 1%float /\
  dict_get (initiative_map s') "joy" = Some 0x1.199999999999ap+0%float /\
  ~ grew_by 1%float 0x1.199999999999ap+0%float 0.1 /\
  value tenth = Some (3602879701896397 # 36028797018963968)%Q /\
  ~ grew_by 1%float 0x1.199999999999ap+0%float (3602879701896397 # 36028797018963968).
Proof.
  assert (Hno : forall new step, value 1%float = Some 1%Q ->
            (exists q, value new = Some q /\ Qeq_bool q (1 + step) = false) ->
            ~ grew_by 1%float new step).
  { intros new step Hone (q & Hq & Hne) (q_old & q_new & Hold & Hnew & Heq).
    rewrite Hone in Hold. injection Hold as <-.
    rewrite Hq in Hnew. injection Hnew as <-.
    apply Qeq_bool_iff in Heq. congruence. }
  assert (Hone : value 1%float = Some 1%Q) by (vm_compute; reflexivity).
  split; [vm_compute; reflexivity|].
  split; [vm_compute; reflexivity|].
  split; [vm_compute; reflexivity|].
  split; [vm_compute; reflexivity|].
  split; [apply Hno; [exact Hone|]; eexists; split; vm_compute; reflexivity|].
  split; [vm_compute; reflexivity|].
  split; [vm_compute; reflexivity|].
  split; [apply Hno; [exact Hone|]; eexists; split; vm_compute; reflexivity|].
  split; [vm_compute; reflexivity|].
  apply Hno; [exact Hone|]; eexists; split; vm_compute; reflexivity.
Qed.
End Binary64Facts.

Section Binary64Update.
Import Py PrimFloat Binary64.
Implicit Types (s : stats) (e : string) (f : float).

(** C2, as amended.  For an emotion [e] of the emotion set (a key of both
    dictionaries) and any feedback [f], [update_emotion_and_initiative e f]
    returns without raising; afterwards the reward of [e] is the binary64
    sum of its old value and [f], and the initiative of [e] is the binary64
    sum of its old value and the double 0.1; the reward and the initiative
    of every other emotion are what they were, and no key is added, dropped
    or moved. *)
Theorem update_adds_in_binary64 s e f (r i : float) :
  dict_get (emotion_reward_map s) e = Some r ->
  dict_get (initiative_map s) e = Some i ->
  exists s',
    update_emotion_and_initiative e f s = (Ok tt, s') /\
    dict_get (emotion_reward_map s') e = Some (r + f)%float /\
    dict_get (initiative_map s') e = Some (i + tenth)%float /\
    (forall e', e' <> e ->
       dict_get (emotion_reward_map s') e' = dict_get (emotion_reward_map s) e' /\
       dict_get (initiative_map s') e' = dict_get (initiative_map s) e') /\
    keys (emotion_reward_map s') = keys (emotion_reward_map s) /\
    keys (initiative_map s') = keys (initiative_map s).
Proof.
  intros Hr Hi. unfold update_emotion_and_initiative.
  cbn [emotion_reward_map initiative_map previous_state]. rewrite Hr.
  cbn [emotion_reward_map initiative_map previous_state]. rewrite Hi.
  eexists. split; [reflexivity|].
  cbn [emotion_reward_map initiative_map]. rewrite !dict_get_setitem_eq.
  split; [done|]. split; [done|]. split.
  - intros e' Hne. by rewrite !dict_get_setitem_ne.
  - split; apply keys_setitem_present; eauto.
Qed.

End Binary64Update.

Lemma update_adds_in_binary64_witness :
  dict_get (Binary64.emotion_reward_map Binary64.fresh) "joy" = Some PrimFloat.one /\
  dict_get (Binary64.initiative_map Binary64.fresh) "joy" = Some PrimFloat.one /\
  exists s',
    Binary64.update_emotion_and_initiative "joy" PrimFloat.one Binary64.fresh = (Ok tt, s') /\
    dict_get (Binary64.emotion_reward_map s') "joy" = Some PrimFloat.two /\
    dict_get (Binary64.initiative_map s') "joy" =
      Some (PrimFloat.add PrimFloat.one Binary64.tenth).
Proof.
  split; [reflexivity|]. split; [reflexivity|].
  destruct (update_adds_in_binary64 Binary64.fresh "joy" PrimFloat.one
              PrimFloat.one PrimFloat.one eq_refl eq_refl)
    as (s' & Hrun & Hr & Hi & _).
  exists s'. split; [exact Hrun|]. split; [exact Hr | exact Hi].
Defined.

(** * Further properties *)

(** ** Invariants over histories *)

Lemma preserves_assign `{External} (P : self.t -> Prop) (f : self.t -> self.t) :
  (forall h, P h -> P (f h)) -> preserves P (assign f).
Proof. intros Hf h Hh. by apply Hf. Qed.

#[export] Hint Resolve preserves_ret preserves_attr preserves_eval
  preserves_get_current_state preserves_map_action_to_emotions preserves_act
  preserves_choose_emotions_based_on_initiative : preserves.

(** Take a method body apart into its assignments; [tac] shows that an
    assignment preserves the property at hand. *)
Ltac preserves_with tac :=
  repeat first
    [ solve [auto with preserves]
    | apply preserves_bind; [|intros ?]
    | apply preserves_for_each; intros ?
    | apply preserves_assign; solve [tac]
    | match goal with
      | |- preserves _ (let _ := _ in _) => cbv zeta
      | |- preserves _ (if ?b then _ else _) => destruct b
      | |- preserves _ (match ?x with _ => _ end) => destruct x
      end ].

Section Histories.
Context `{External}.
Implicit Types (h : self.t) (P : self.t -> Prop).

Lemma preserves_learn_from_inference P feedback rand r :
  (forall e f, preserves P (update_emotion_and_initiative e f)) ->
  (forall p a rw c d, preserves P (remember p a rw c d)) ->
  preserves P (learn_from_inference feedback rand r).
Proof.
  intros Hu Hr. unfold learn_from_inference.
  repeat first [ solve [auto with preserves] | apply preserves_bind; [|intros ?] ].
Qed.

Lemma preserves_get_llm_response_emotion P e rand1 r1 feedback rand2 r2 :
  preserves P (learn_from_inference feedback rand2 r2) ->
  preserves P (get_llm_response_emotion e rand1 r1 feedback rand2 r2).
Proof.
  intros Hl. unfold get_llm_response_emotion.
  repeat first [ solve [auto with preserves] | apply preserves_bind; [|intros ?] ].
Qed.

(** What the statistics update, the learning cycle and the training step
    preserve holds after every history without a direct [remember]. *)
Lemma history_invariant P cs h :
  (forall e f, preserves P (update_emotion_and_initiative e f)) ->
  (forall f rand r, preserves P (learn_from_inference f rand r)) ->
  (forall batch_size draws, preserves P (replay batch_size draws)) ->
  Forall no_direct_push cs ->
  P h -> P (after_all cs h).
Proof.
  intros Hu Hl Hr Hcs. revert h.
  induction Hcs as [|c cs Hc _ IH]; intros h Hh; [done|].
  rewrite after_all_cons. apply IH.
  destruct c; cbn [after].
  - by apply (preserves_get_current_state P).
  - by apply (preserves_attr P).
  - by apply (preserves_map_action_to_emotions P).
  - by apply (preserves_act P).
  - by apply (preserves_choose_emotions_based_on_initiative P).
  - done.
  - by apply Hu.
  - by apply Hl.
  - by apply Hr.
  - by apply (preserves_get_llm_response_emotion P).
Qed.

(** The same for every history, when a direct [remember] preserves the
    property too. *)
Lemma full_history_invariant P cs h :
  (forall e f, preserves P (update_emotion_and_initiative e f)) ->
  (forall p a rw c d, preserves P (remember p a rw c d)) ->
  (forall batch_size draws, preserves P (replay batch_size draws)) ->
  P h -> P (after_all cs h).
Proof.
  intros Hu Hm Hr. revert h.
  induction cs as [|c cs IH]; intros h Hh; [done|].
  rewrite after_all_cons. apply IH.
  destruct c; cbn [after].
  - by apply (preserves_get_current_state P).
  - by apply (preserves_attr P).
  - by apply (preserves_map_action_to_emotions P).
  - by apply (preserves_act P).
  - by apply (preserves_choose_emotions_based_on_initiative P).
  - by apply Hm.
  - by apply Hu.
  - by apply (preserves_learn_from_inference P).
  - by apply Hr.
  - apply (preserves_get_llm_response_emotion P); [|done].
    by apply preserves_learn_from_inference.
Qed.

End Histories.

(** ** The shape of the network *)

Lemma length_relu (x : Torch.tensor) : length (Torch.relu x) = length x.
Proof. unfold Torch.relu. apply length_fmap. Qed.

Lemma length_Linear_forward (l : Torch.Linear) (x q : Torch.tensor) :
  Torch.Linear_forward l x = Ok q ->
  length x = Torch.in_features l /\
  length q = length (Torch.weight l) `min` length (Torch.bias l).
Proof.
  unfold Torch.Linear_forward.
  destruct (Nat.eqb_spec (length x) (Torch.in_features l)); [|done].
  intros [= <-]. by rewrite length_zip_with.
Qed.

Lemma Linear_forward_nn_Linear (a b : nat) (i : Torch.LinearInit) (x : Torch.tensor) :
  length x = a ->
  exists q, Torch.Linear_forward (Torch.nn_Linear a b i) x = Ok q /\ length q = b.
Proof.
  intros Hx. unfold Torch.Linear_forward, Torch.nn_Linear.
  cbn [Torch.in_features Torch.weight Torch.bias].
  rewrite (proj2 (Nat.eqb_eq _ _) Hx).
  eexists. split; [done|].
  rewrite length_zip_with, !length_fmap, !length_seq. lia.
Qed.

(** [forward], layer by layer. *)
Lemma forward_run (m : DQN) (x : Torch.tensor) :
  forward m x =
    match Torch.Linear_forward (fc1 m) x with
    | Raise e => Raise e
    | Ok x1 =>
        match Torch.Linear_forward (fc2 m) (Torch.relu x1) with
        | Raise e => Raise e
        | Ok x2 => Torch.Linear_forward (fc3 m) (Torch.relu x2)
        end
    end.
Proof. reflexivity. Qed.

(** X1. A network made by [DQN(input_size, output_size)] scores exactly the
    inputs of length [input_size]: for them [forward] returns [output_size]
    scores, for every other input it raises. *)
Theorem forward_accepts_input_size (input_size output_size : nat) (i : DQNInit)
    (x : Torch.tensor) :
  (length x = input_size ->
   exists q, forward (DQN_init input_size output_size i) x = Ok q /\
             length q = output_size) /\
  (length x <> input_size ->
   forward (DQN_init input_size output_size i) x = Raise RuntimeError).
Proof.
  rewrite forward_run. unfold DQN_init. cbn [fc1 fc2 fc3]. split.
  - intros Hx.
    destruct (Linear_forward_nn_Linear input_size 128 (fc1_init i) x Hx) as (x1 & -> & H1).
    destruct (Linear_forward_nn_Linear 128 128 (fc2_init i) (Torch.relu x1))
      as (x2 & -> & H2); [by rewrite length_relu|].
    apply Linear_forward_nn_Linear. by rewrite length_relu.
  - intros Hx. unfold Torch.Linear_forward at 1, Torch.nn_Linear at 1.
    cbn [Torch.in_features]. by rewrite (proj2 (Nat.eqb_neq _ _) Hx).
Qed.

Lemma length_forward (m : DQN) (x q : Torch.tensor) :
  forward m x = Ok q ->
  length q = length (Torch.weight (fc3 m)) `min` length (Torch.bias (fc3 m)).
Proof.
  rewrite forward_run.
  destruct (Torch.Linear_forward (fc1 m) x); [|done].
  destruct (Torch.Linear_forward (fc2 m) _); [|done].
  by intros [_ ?]%length_Linear_forward.
Qed.

(** ** The range of actions *)

Lemma argmax_from_bound (t : Torch.tensor) (best_i : nat) (best : Q) (i : nat) :
  best_i < i -> Torch.argmax_from best_i best i t < i + length t.
Proof.
  revert best_i best i. induction t as [|w t IH]; intros best_i best i Hlt; cbn.
  - lia.
  - destruct (Qle_bool w best).
    + specialize (IH best_i best (S i)). lia.
    + specialize (IH i w (S i)). lia.
Qed.

Lemma argmax_bound (t : Torch.tensor) (a : Z) :
  Torch.argmax t = Ok a -> (0 <= a < Z.of_nat (length t))%Z.
Proof.
  destruct t as [|v t]; [done|]. cbn. intros [= <-].
  pose proof (argmax_from_bound t 0 v 1). lia.
Qed.

Lemma randrange_bound (n r : nat) (a : Z) :
  randrange n r = Ok a -> (0 <= a < Z.of_nat n)%Z.
Proof.
  unfold randrange. destruct (Nat.eqb_spec n 0); [done|]. intros [= <-].
  pose proof (Nat.mod_upper_bound r n). lia.
Qed.

Section ActionFacts.
Context `{External}.
Implicit Types (h : self.t).

Lemma act_run state rand r h :
  act state rand r h =
    (if Qle_bool rand (self.epsilon h) then randrange (self.action_size h) r
     else
       state_tensor ← Torch.FloatTensor state;
       act_values ← forward (self.model h) state_tensor;
       Torch.argmax act_values, h).
Proof.
  unfold act. run_method. unfold result_bind.
  destruct (Qle_bool _ _); [done|]. by repeat case_match.
Qed.

(** X2. When the output layer of the network has one row and one bias per
    action, every action [act] returns, exploring or exploiting, is one of
    [0 .. action_size - 1]. *)
Theorem act_returns_an_action state rand r h (a : Z) :
  output_per_action h ->
  (act state rand r h).1 = Ok a ->
  (0 <= a < Z.of_nat (self.action_size h))%Z.
Proof.
  intros [Hw Hb]. rewrite act_run. cbn [fst].
  destruct (Qle_bool _ _); [apply randrange_bound|].
  unfold mbind, result_bind.
  destruct (Torch.FloatTensor state) as [state_tensor|]; [|done].
  destruct (forward (self.model h) state_tensor) as [q|] eqn:Eq; [|done].
  intros Ha%argmax_bound. apply length_forward in Eq. lia.
Qed.

End ActionFacts.

Lemma act_returns_an_action_witness :
  output_per_action fresh /\
  (act (Some (state_vector fresh)) 2 7 fresh).1 = Ok 0%Z /\
  (0 <= 0 < Z.of_nat (self.action_size fresh))%Z.
Proof.
  assert (Hshape : output_per_action fresh) by (split; vm_compute; reflexivity).
  assert (Hrun : (act (Some (state_vector fresh)) 2 7 fresh).1 = Ok 0%Z)
    by (vm_compute; reflexivity).
  split; [exact Hshape|]. split; [exact Hrun|].
  exact (@act_returns_an_action idle _ _ _ _ _ Hshape Hrun).
Defined.

(** ** Edges of the choice of emotions *)

Section ChoiceFacts.
Context `{External}.
Implicit Types (h : self.t) (action : Z).

(** X3. With fewer emotions than the action asks for, [map_action_to_emotions]
    raises [IndexError] and leaves the attributes as they are. *)
Theorem map_action_to_emotions_too_few h action :
  length (self.initiative_map h) < emotions_wanted action ->
  map_action_to_emotions action h = (Raise IndexError, h).
Proof.
  intros Hlen. unfold map_action_to_emotions. run_method. fold (ranking h).
  assert (Hl : length (ranking h) < emotions_wanted action).
  { unfold ranking. by rewrite length_sorted. }
  unfold emotions_wanted in Hl.
  destruct (ranking h) as [|a [|b [|c rest]]]; cbn in Hl;
    destruct (action =? 0)%Z; try lia; try done;
    destruct (action =? 1)%Z; try lia; done.
Qed.

(** X4. The emotion action 0 answers with has the greatest initiative of all. *)
Theorem top_emotion_has_greatest_initiative h e :
  map_action_to_emotions 0 h = (Ok [e], h) ->
  exists v, (e, v) ∈ self.initiative_map h /\
    forall e' v', (e', v') ∈ self.initiative_map h -> (v' <= v)%Q.
Proof.
  unfold map_action_to_emotions. run_method. fold (ranking h). cbn.
  pose proof (ranking_Permutation h) as Hperm. unfold items in Hperm.
  pose proof (ranking_sorted h) as Hsorted.
  destruct (ranking h) as [|[e0 v0] rest]; [done|]. cbn.
  intros [= <-]. exists v0. split.
  - rewrite <- Hperm. by left.
  - intros e' v' Hin. rewrite <- Hperm in Hin.
    apply StronglySorted_inv in Hsorted as [_ Hall].
    apply elem_of_cons in Hin as [[= -> ->]|Hin]; [apply Qle_refl|].
    apply (stays_before_key snd (self.initiative_map h) (e0, v0) (e', v')).
    by apply (proj1 (Forall_forall _ _) Hall).
Qed.

(** X5. When [act] explores, [choose_emotions_based_on_initiative] answers with
    the first [r mod 3 + 1] emotions of the ranking, one to three of them as
    the generator decides, and changes no attribute. *)
Theorem choose_emotions_when_exploring rand r h :
  3 <= length (self.initiative_map h) ->
  self.action_size h = 3 ->
  (rand <= self.epsilon h)%Q ->
  choose_emotions_based_on_initiative rand r h =
    (Ok (take (S (r mod 3)) (ranking h)).*1, h).
Proof.
  intros Hlen Hn Hle. unfold choose_emotions_based_on_initiative.
  rewrite bind_run, get_current_state_run, bind_run, act_explores by done.
  rewrite Hn. unfold randrange. cbn [Nat.eqb].
  rewrite map_action_to_emotions_run by done.
  do 3 f_equal. unfold emotions_wanted.
  pose proof (Nat.mod_upper_bound r 3).
  destruct (r mod 3) as [|[|[|k]]]; cbn; [done..|lia].
Qed.

End ChoiceFacts.


Lemma map_action_to_emotions_too_few_witness :
  length (self.initiative_map two_emotions) < emotions_wanted 2 /\
  map_action_to_emotions 2 two_emotions = (Raise IndexError, two_emotions).
Proof.
  assert (Hlen : length (self.initiative_map two_emotions) < emotions_wanted 2)
    by (vm_compute; lia).
  split; [exact Hlen|].
  exact (@map_action_to_emotions_too_few idle two_emotions 2 Hlen).
Defined.

Lemma top_emotion_has_greatest_initiative_witness :
  map_action_to_emotions 0 example_handler = (Ok ["joy"%string], example_handler) /\
  exists v, ("joy"%string, v) ∈ self.initiative_map example_handler /\
    forall e' v', (e', v') ∈ self.initiative_map example_handler -> (v' <= v)%Q.
Proof.
  assert (Hrun : map_action_to_emotions 0 example_handler =
                   (Ok ["joy"%string], example_handler)) by reflexivity.
  split; [exact Hrun|].
  exact (@top_emotion_has_greatest_initiative idle example_handler "joy" Hrun).
Defined.

Lemma choose_emotions_when_exploring_witness :
  3 <= length (self.initiative_map fresh) /\
  self.action_size fresh = 3 /\
  (0.3 <= self.epsilon fresh)%Q /\
  choose_emotions_based_on_initiative 0.3 7 fresh =
    (Ok (take (S (7 mod 3)) (ranking fresh)).*1, fresh).
Proof.
  assert (Hlen : 3 <= length (self.initiative_map fresh)) by (vm_compute; lia).
  assert (Hn : self.action_size fresh = 3) by reflexivity.
  assert (Hle : (0.3 <= self.epsilon fresh)%Q) by (vm_compute; discriminate).
  split; [exact Hlen|]. split; [exact Hn|]. split; [exact Hle|].
  exact (@choose_emotions_when_exploring idle 0.3 7 fresh Hlen Hn Hle).
Defined.

(** ** Edges of the statistics update and of the training step *)

Section EdgeFacts.
Context `{External}.
Implicit Types (h : self.t) (e : string).

Lemma update_emotion_and_initiative_unknown h e feedback :
  dict_get (self.emotion_reward_map h) e = None ->
  update_emotion_and_initiative e feedback h =
    (Raise KeyError, self.set_previous_state (Some (state_vector h)) h).
Proof.
  intros Hr. unfold update_emotion_and_initiative, get_current_state, dict_getitem.
  run_method. cbn. by rewrite Hr.
Qed.

(** X6. On a consistent handler the statistics update raises [KeyError] exactly
    for the labels outside the emotion set; the failed call has changed no
    reward and no initiative, but it has already overwritten
    [previous_state] with the current state. *)
Theorem update_raises_for_unknown_emotions h e feedback :
  consistent h ->
  ((update_emotion_and_initiative e feedback h).1 = Raise KeyError <->
   e ∉ self.emotions h) /\
  (e ∉ self.emotions h ->
   (update_emotion_and_initiative e feedback h).2 =
     self.set_previous_state (Some (state_vector h)) h).
Proof.
  intros (_ & _ & Hk & He & _).
  assert (Hin : e ∈ self.emotions h <-> is_Some (dict_get (self.emotion_reward_map h) e)).
  { rewrite <- He, <- Hk. apply elem_of_keys. }
  destruct (dict_get (self.emotion_reward_map h) e) as [r|] eqn:Er.
  - assert (is_Some (dict_get (self.initiative_map h) e)) as [i Ei].
    { apply elem_of_keys. rewrite <- Hk. apply elem_of_keys. by rewrite Er. }
    rewrite (update_emotion_and_initiative_run h e feedback r i Er Ei). cbn [fst].
    split; [|intros Hne; destruct Hne; apply Hin; eauto].
    split; [done|]. intros Hne. destruct Hne. apply Hin. eauto.
  - rewrite update_emotion_and_initiative_unknown by done. cbn [fst snd].
    split; [|done]. split; [|done]. intros _ [? ?]%Hin. done.
Qed.

(** X7. A negative batch size is not skipped: [random.sample] raises
    [ValueError], and nothing has changed. *)
Theorem replay_negative_batch_size h (batch_size : Z) draws :
  (batch_size < 0)%Z ->
  replay batch_size draws h = (Raise ValueError, h).
Proof.
  intros Hneg. rewrite replay_run.
  destruct (Z.ltb_spec (Z.of_nat (len (self.memory h))) batch_size); [lia|].
  unfold sample. by rewrite (proj2 (Z.ltb_lt _ _) Hneg).
Qed.

(** X8. A batch size of 0 is never skipped and never raises: nothing is trained,
    and the decay rule is applied to [epsilon] all the same. *)
Theorem replay_empty_batch h draws :
  replay 0 draws h =
    (Ok tt,
     self.set_epsilon
       (decay (self.epsilon h) (self.epsilon_min h) (self.epsilon_decay h)) h).
Proof.
  rewrite replay_run.
  destruct (Z.ltb_spec (Z.of_nat (len (self.memory h))) 0); [lia|].
  unfold sample.
  destruct (Z.ltb_spec (Z.of_nat (length (dq_items (self.memory h)))) 0); [lia|].
  change (sample_picks _ (Z.to_nat 0) draws) with (@nil Transition).
  cbn [for_each mret M_ret orb]. unfold decay.
  destruct h. cbn. by destruct (Qgt_bool _ _).
Qed.

Lemma only_trained_refl h : only_trained h h.
Proof.
  exists (self.epsilon h), (self.model h, self.optimizer h). by destruct h.
Qed.

(** X9. [replay], whether it returns or raises, changes nothing but the network,
    the optimizer and [epsilon]: the experiences, the two dictionaries,
    [previous_state] and the other hyperparameters are as before. *)
Theorem replay_only_trains h (batch_size : Z) draws :
  let h' := (replay batch_size draws h).2 in
  only_trained h h' /\
  self.memory h' = self.memory h /\
  self.emotion_reward_map h' = self.emotion_reward_map h /\
  self.initiative_map h' = self.initiative_map h /\
  self.previous_state h' = self.previous_state h /\
  self.gamma h' = self.gamma h /\
  self.epsilon_min h' = self.epsilon_min h /\
  self.epsilon_decay h' = self.epsilon_decay h.
Proof.
  intros h'.
  assert (Hp : preserves (only_trained h) (replay batch_size draws)).
  { unfold replay, replay_one.
    preserves_with ltac:(intros ? (? & ? & ->); eexists _, _; reflexivity). }
  destruct (Hp h (only_trained_refl h)) as (eps & trained & Heq).
  fold h' in Heq. split; [by exists eps, trained|].
  by rewrite Heq.
Qed.

Lemma only_learned_refl h : only_learned h h.
Proof.
  exists (self.previous_state h), (self.emotion_reward_map h),
    (self.initiative_map h), (self.memory h). by destruct h.
Qed.

(** X10. The learning cycle does no training: [get_llm_response_emotion], and
    [learn_from_inference] in it, whether they return or raise, leave the
    network, the optimizer, [epsilon] and the other hyperparameters as they
    are; only [previous_state], the two dictionaries and [memory] change. *)
Theorem learning_cycle_does_not_train h e rand1 r1 feedback rand2 r2 :
  let h' := (get_llm_response_emotion e rand1 r1 feedback rand2 r2 h).2 in
  only_learned h h' /\
  self.model h' = self.model h /\
  self.optimizer h' = self.optimizer h /\
  self.epsilon h' = self.epsilon h /\
  self.gamma h' = self.gamma h /\
  self.current_user_emotion h' = self.current_user_emotion h.
Proof.
  intros h'.
  assert (Hp : preserves (only_learned h)
                 (get_llm_response_emotion e rand1 r1 feedback rand2 r2)).
  { apply preserves_get_llm_response_emotion.
    unfold learn_from_inference, update_emotion_and_initiative, remember.
    preserves_with ltac:(
      intros ? (? & ? & ? & ? & ->);
      match goal with
      | |- only_learned _ ?g =>
          exists (self.previous_state g), (self.emotion_reward_map g),
            (self.initiative_map g), (self.memory g); reflexivity
      end). }
  destruct (Hp h (only_learned_refl h)) as (p & rw & i & m & Heq).
  fold h' in Heq. split; [by exists p, rw, i, m|].
  by rewrite Heq.
Qed.

End EdgeFacts.

Lemma update_raises_for_unknown_emotions_witness :
  consistent fresh /\
("boredom"%string ∉ self.emotions fresh) /\
  (update_emotion_and_initiative "boredom" 1 fresh).1 = Raise KeyError /\
  self.previous_state (update_emotion_and_initiative "boredom" 1 fresh).2 =
    Some (state_vector fresh).
Proof.
  pose proof (@consistent_init_attrs idle (default_args zeros)) as Hc.
  fold fresh in Hc.
  assert (Hout : "boredom"%string ∉ self.emotions fresh)
    by (apply (bool_decide_unpack _); vm_compute; reflexivity).
  destruct (@update_raises_for_unknown_emotions idle fresh "boredom" 1 Hc) as [Hiff Hstate].
  split; [exact Hc|]. split; [exact Hout|]. split; [by apply Hiff|].
  by rewrite Hstate.
Defined.

Lemma replay_negative_batch_size_witness :
  (-1 < 0)%Z /\ replay (-1) [] fresh = (Raise ValueError, fresh).
Proof.
  split; [reflexivity|].
  exact (@replay_negative_batch_size idle fresh (-1) [] eq_refl).
Defined.

(** ** What histories keep *)

Lemma keys_foldl_setitem {V} (ks : list string) (v : V) (d0 : dict V) :
  NoDup (keys d0 ++ ks) ->
  keys (foldl (fun d k => dict_setitem d k v) d0 ks) = keys d0 ++ ks.
Proof.
  revert d0. induction ks as [|k ks IH]; intros d0 Hnd; cbn [foldl].
  - by rewrite app_nil_r.
  - assert (Hk : dict_get d0 k = None).
    { apply eq_None_not_Some. intros Hs%elem_of_keys.
      apply NoDup_app in Hnd as (_ & Hdis & _). apply (Hdis k Hs). by left. }
    rewrite IH; rewrite keys_setitem_absent by done.
    + by rewrite <- app_assoc.
    + by rewrite <- app_assoc.
Qed.

(** The dictionary of a comprehension over distinct keys has them in order. *)
Lemma dict_comprehension_keys_NoDup {V} (ks : list string) (v : V) :
  NoDup ks -> keys (dict_comprehension ks v) = ks.
Proof. intros Hnd. unfold dict_comprehension. by rewrite keys_foldl_setitem. Qed.

Lemma length_values {V} (d : dict V) : length (values d) = length (keys d).
Proof. unfold values, keys. by rewrite !length_fmap. Qed.

Section HistoryFacts.
Context `{External}.
Implicit Types (h : self.t) (e : string).

(** The outcomes of the statistics update. *)
Lemma update_emotion_and_initiative_cases e feedback h :
  (exists r i,
     dict_get (self.emotion_reward_map h) e = Some r /\
     dict_get (self.initiative_map h) e = Some i /\
     update_emotion_and_initiative e feedback h =
       (Ok tt,
        self.set_initiative_map (dict_setitem (self.initiative_map h) e (i + 0.1)%Q)
          (self.set_emotion_reward_map
             (dict_setitem (self.emotion_reward_map h) e (r + feedback)%Q)
             (self.set_previous_state (Some (state_vector h)) h)))) \/
  (dict_get (self.emotion_reward_map h) e = None /\
   update_emotion_and_initiative e feedback h =
     (Raise KeyError, self.set_previous_state (Some (state_vector h)) h)) \/
  (exists r,
     dict_get (self.emotion_reward_map h) e = Some r /\
     dict_get (self.initiative_map h) e = None /\
     update_emotion_and_initiative e feedback h =
       (Raise KeyError,
        self.set_emotion_reward_map
          (dict_setitem (self.emotion_reward_map h) e (r + feedback)%Q)
          (self.set_previous_state (Some (state_vector h)) h))).
Proof.
  destruct (dict_get (self.emotion_reward_map h) e) as [r|] eqn:Er;
    [destruct (dict_get (self.initiative_map h) e) as [i|] eqn:Ei|].
  - left. exists r, i. repeat split. by apply update_emotion_and_initiative_run.
  - right. right. exists r. repeat split.
    unfold update_emotion_and_initiative, get_current_state, dict_getitem.
    run_method. cbn. by rewrite Er, Ei.
  - right. left. split; [done|]. by apply update_emotion_and_initiative_unknown.
Qed.


Lemma keyed_update ks e feedback :
  preserves (keyed ks) (update_emotion_and_initiative e feedback).
Proof.
  intros h [Hr Hi].
  destruct (update_emotion_and_initiative_cases e feedback h)
    as [(r & i & Er & Ei & ->)|[(Er & ->)|(r & Er & Ei & ->)]]; split; cbn -[keys];
    rewrite ?keys_setitem_present; try done; by eauto.
Qed.

(** X11. From a construction with distinct emotions on, through every history,
    the two dictionaries keep exactly the emotions as keys, in the order
    given, and the state vector has twice as many entries as there are
    emotions. *)
Theorem state_layout_is_stable (args : Args) (cs : list Call) :
  NoDup (arg_emotions args) ->
  let h := after_all cs (init_attrs args) in
  keys (self.emotion_reward_map h) = arg_emotions args /\
  keys (self.initiative_map h) = arg_emotions args /\
  length (state_vector h) = 2 * length (arg_emotions args).
Proof.
  intros Hnd h.
  assert (Hk : keyed (arg_emotions args) h).
  { apply full_history_invariant.
    - intros. apply keyed_update.
    - intros. by intros ? ?.
    - intros. unfold replay, replay_one.
      preserves_with ltac:(by intros ? ?).
    - split; by apply dict_comprehension_keys_NoDup. }
  destruct Hk as [Hr Hi]. split; [done|]. split; [done|].
  unfold state_vector. rewrite length_app, !length_values, Hr, Hi. lia.
Qed.

End HistoryFacts.

Lemma state_layout_is_stable_witness :
  NoDup (arg_emotions (default_args zeros)) /\
  length (state_vector
            (@after_all idle [LearnFromInference 0.5 0.3 7; Replay 1 [0]]
               (init_attrs (default_args zeros)))) = state_size.
Proof.
  assert (Hnd : NoDup (arg_emotions (default_args zeros)))
    by (apply (bool_decide_unpack _); vm_compute; reflexivity).
  split; [exact Hnd|].
  exact (proj2 (proj2 (@state_layout_is_stable idle (default_args zeros)
                         [LearnFromInference 0.5 0.3 7; Replay 1 [0]] Hnd))).
Defined.

Section GrowthFacts.
Context `{External}.
Implicit Types (h : self.t) (e : string).

Lemma initiative_grown_update h0 e feedback :
  preserves (initiative_grown h0) (update_emotion_and_initiative e feedback).
Proof.
  intros h Hg.
  destruct (update_emotion_and_initiative_cases e feedback h)
    as [(r & i & Er & Ei & ->)|[(Er & ->)|(r & Er & Ei & ->)]]; cbn [snd]; [|done..].
  intros e' v Hv. destruct (Hg e' v Hv) as (v1 & Hv1 & Hle).
  cbn [self.initiative_map self.set_initiative_map].
  destruct (decide (e' = e)) as [->|Hne].
  - rewrite dict_get_setitem_eq. eexists. split; [done|].
    rewrite Ei in Hv1. injection Hv1 as <-.
    apply Qle_trans with i; [done|].
    rewrite <- (Qplus_0_r i) at 1. by apply Qplus_le_r.
  - rewrite dict_get_setitem_ne by done. by exists v1.
Qed.

(** X12. Initiative only grows: through every history, the initiative of every
    emotion is at least what it was before; nothing ever lowers it. *)
Theorem initiative_never_decreases (cs : list Call) h e (v : Q) :
  dict_get (self.initiative_map h) e = Some v ->
  exists v', dict_get (self.initiative_map (after_all cs h)) e = Some v' /\ (v <= v')%Q.
Proof.
  revert e v. change (initiative_grown h (after_all cs h)).
  apply full_history_invariant.
  - intros. apply initiative_grown_update.
  - intros. by intros ? ?.
  - intros. unfold replay, replay_one. preserves_with ltac:(by intros ? ?).
  - intros e v Hv. exists v. split; [done|apply Qle_refl].
Qed.

(** *** Bounds on epsilon *)

Lemma epsilon_bounds_replay m d top batch_size draws :
  (0 <= d)%Q -> (d <= 1)%Q ->
  preserves (epsilon_bounds m d top) (replay batch_size draws).
Proof.
  intros Hd Hd1 h (Hmin & Hdecay & Hlow & Hhigh).
  rewrite replay_run.
  destruct (_ <? _)%Z; [done|].
  destruct (sample _ _ _) as [minibatch|]; [|done].
  pose proof (preserves_for_each _ minibatch replay_one
    (exploration_replay_one (self.epsilon h) m d) h) as Hloop.
  destruct (for_each minibatch replay_one h) as [[[]|e] h1];
    destruct Hloop as (He & Hm1 & Hd1'); try done; cbn [snd] in *.
  2: { unfold epsilon_bounds. rewrite He, Hm1, Hd1'.
       split; [reflexivity|]. split; [reflexivity|]. split; [exact Hlow|exact Hhigh]. }
  rewrite He, Hm1, Hd1'.
  destruct (Qgt_bool (self.epsilon h) m); unfold epsilon_bounds; cbn.
  - rewrite Hm1, Hd1'.
    split; [reflexivity|]. split; [reflexivity|]. split.
    + by apply Qmult_le_0_compat.
    + apply Qle_trans with (self.epsilon h); [|exact Hhigh].
      rewrite <- (Qmult_1_r (self.epsilon h)) at 2.
      destruct (Qlt_le_dec 0 (self.epsilon h)) as [Hpos|Hzero].
      * by apply Qmult_le_l.
      * assert (Heq : self.epsilon h == 0) by (by apply Qle_antisym).
        rewrite Heq, !Qmult_0_l. apply Qle_refl.
  - rewrite He, Hm1, Hd1'.
    split; [reflexivity|]. split; [reflexivity|]. split; [exact Hlow|exact Hhigh].
Qed.

(** X13. From a construction with [0 <= epsilon_decay <= 1] and
    [0 <= epsilon], through every history: [epsilon] is never negative and
    never rises above its initial value, and [epsilon_min] and
    [epsilon_decay] keep their values.  Both bounds are weak ones: the
    product [epsilon * epsilon_decay] lies between 0 and [epsilon], and so
    does any rounding of it to a double, 0 and [epsilon] being doubles. *)
Theorem epsilon_stays_in_bounds (args : Args) (cs : list Call) :
  (0 <= arg_epsilon_decay args)%Q ->
  (arg_epsilon_decay args <= 1)%Q ->
  (0 <= arg_epsilon args)%Q ->
  epsilon_bounds (arg_epsilon_min args) (arg_epsilon_decay args) (arg_epsilon args)
    (after_all cs (init_attrs args)).
Proof.
  intros Hd Hd1 Hstart.
  apply full_history_invariant.
  - intros. unfold update_emotion_and_initiative. preserves_with ltac:(by intros ? ?).
  - intros. by intros ? ?.
  - intros. by apply epsilon_bounds_replay.
  - split; [reflexivity|]. split; [reflexivity|]. split; [exact Hstart|apply Qle_refl].
Qed.

End GrowthFacts.

Lemma initiative_never_decreases_witness :
  dict_get (self.initiative_map fresh) "neutral" = Some 1%Q /\
  exists v',
    dict_get (self.initiative_map
                (after_all [LearnFromInference 0.5 0.3 7; Replay 1 [0]] fresh))
      "neutral" = Some v' /\ (1 <= v')%Q.
Proof.
  split; [reflexivity|].
  exact (@initiative_never_decreases idle
           [LearnFromInference 0.5 0.3 7; Replay 1 [0]] fresh "neutral" 1 eq_refl).
Defined.

Lemma epsilon_stays_in_bounds_witness :
  (0 <= 0.995)%Q /\ (0.995 <= 1)%Q /\ (0 <= 1.0)%Q /\
  epsilon_bounds 0.01 0.995 1.0
    (@after_all idle (replicate 3 (Replay 0 [])) (init_attrs (default_args zeros))).
Proof.
  assert (H1 : (0 <= 0.995)%Q) by (vm_compute; discriminate).
  assert (H2 : (0.995 <= 1)%Q) by (vm_compute; discriminate).
  assert (H3 : (0 <= 1.0)%Q) by (vm_compute; discriminate).
  split; [exact H1|]. split; [exact H2|]. split; [exact H3|].
  exact (@epsilon_stays_in_bounds idle (default_args zeros)
           (replicate 3 (Replay 0 [])) H1 H2 H3).
Defined.

(** ** The learning cycle over histories *)

Lemma append_items_subseteq {A} (d : deque A) (x : A) :
  dq_items (append d x) ⊆ dq_items d ++ [x].
Proof.
  unfold append. destruct (maxlen d =? 0).
  { intros y Hy. apply elem_of_app. by left. }
  destruct (len d <? maxlen d); cbn; [done|].
  destruct (dq_items d) as [|a l]; cbn; [done|].
  intros y Hy. by right.
Qed.

Section CycleFacts.
Context `{External}.
Implicit Types (h : self.t) (e : string).

(** What [learn_from_inference] leaves in [memory]: what was there when it
    raises, and one more experience, of the cycle's form, when it returns. *)
Lemma learn_from_inference_memory feedback rand r h :
  let h' := (learn_from_inference feedback rand r h).2 in
  ((learn_from_inference feedback rand r h).1 <> Ok tt /\
   self.memory h' = self.memory h) \/
  ((learn_from_inference feedback rand r h).1 = Ok tt /\
   exists now action before,
     self.memory h' =
       append (self.memory h) (Some now, action, feedback, Some before, false)).
Proof.
  intros h'. unfold h'.
  destruct (learn_from_inference feedback rand r h) as [[[]|err] h1] eqn:E.
  - right. split; [done|].
    destruct (learn_from_inference_pushes _ _ _ _ _ E) as (h2 & action & _ & _ & ->).
    by eexists _, _, _.
  - left. split; [done|]. cbn [snd].
    revert E. unfold learn_from_inference. rewrite bind_run. cbn [attr].
    rewrite bind_run.
    assert (Hu : self.memory
                   (update_emotion_and_initiative (self.current_user_emotion h) feedback h).2
                 = self.memory h).
    { destruct (update_emotion_and_initiative_cases (self.current_user_emotion h) feedback h)
        as [(? & ? & _ & _ & ->)|[(_ & ->)|(? & _ & _ & ->)]]; reflexivity. }
    destruct (update_emotion_and_initiative _ feedback h) as [[[]|e1] h2];
      cbn [snd] in Hu; [|by intros [= _ <-]].
    rewrite bind_run, get_current_state_run, bind_run.
    pose proof (act_attrs (Some (state_vector h2)) rand r h2) as Ha.
    destruct (act _ rand r h2) as [[action|e2] h3]; cbn [snd] in Ha; subst h3.
    + rewrite bind_run. cbn [attr]. by rewrite remember_run.
    + by intros [= _ <-].
Qed.

Lemma cycle_experience_learn feedback rand r :
  preserves (fun h => Forall cycle_experience (dq_items (self.memory h)))
    (learn_from_inference feedback rand r).
Proof.
  intros h Hall.
  destruct (learn_from_inference_memory feedback rand r h)
    as [[_ ->]|[_ (now & action & before & ->)]]; [done|].
  apply Forall_forall. intros t Ht%append_items_subseteq.
  apply elem_of_app in Ht as [Ht|Ht%list_elem_of_singleton].
  - by apply (proj1 (Forall_forall _ _) Hall).
  - subst t. repeat split; cbn; eauto.
Qed.

(** X14. The learning cycle stores no terminal experience and no experience
    without its two state vectors: from construction on, through every
    history without a direct [remember], every experience in [memory] has
    its flag false and a vector in both state slots, so [replay] never meets
    a terminal experience nor a missing state. *)
Theorem memory_holds_cycle_experiences (args : Args) (cs : list Call) :
  Forall no_direct_push cs ->
  Forall cycle_experience (dq_items (self.memory (after_all cs (init_attrs args)))).
Proof.
  intros Hcs.
  apply (history_invariant
           (fun h => Forall cycle_experience (dq_items (self.memory h)))); [..|done|].
  - intros. unfold update_emotion_and_initiative. preserves_with ltac:(by intros ? ?).
  - intros. apply cycle_experience_learn.
  - intros. unfold replay, replay_one. preserves_with ltac:(by intros ? ?).
  - constructor.
Qed.

(** *** Without the emotion "neutral" *)


Lemma neutral_missing_update e feedback :
  preserves neutral_missing (update_emotion_and_initiative e feedback).
Proof.
  intros h [Hc Hn].
  destruct (update_emotion_and_initiative_cases e feedback h)
    as [(r & i & Er & Ei & ->)|[(Er & ->)|(r & Er & Ei & ->)]]; split; cbn; try done.
  all: rewrite dict_get_setitem_ne; [done|]; intros <-; congruence.
Qed.

(** X15. [current_user_emotion] starts as "neutral" and no method assigns it.  So
    when the handler is constructed with an emotion list without "neutral",
    [learn_from_inference] raises [KeyError] in every state a history can
    reach, and stores nothing. *)
Theorem learn_from_inference_needs_neutral (args : Args) (cs : list Call) feedback rand r :
  "neutral"%string ∉ arg_emotions args ->
  let h := after_all cs (init_attrs args) in
  (learn_from_inference feedback rand r h).1 = Raise KeyError /\
  self.memory (learn_from_inference feedback rand r h).2 = self.memory h.
Proof.
  intros Hout h.
  assert (Hn : neutral_missing h).
  { apply full_history_invariant.
    - intros. apply neutral_missing_update.
    - intros. by intros ? ?.
    - intros. unfold replay, replay_one. preserves_with ltac:(by intros ? ?).
    - split; [done|]. apply eq_None_not_Some. intros Hs%elem_of_keys.
      by apply elem_of_dict_comprehension in Hs. }
  destruct Hn as [Hc Hn].
  unfold learn_from_inference. rewrite bind_run. cbn [attr]. rewrite Hc, bind_run.
  by rewrite update_emotion_and_initiative_unknown.
Qed.

(** *** A cycle that explores *)

(** X16. On a consistent handler whose [current_user_emotion] is in the emotion
    set and whose [action_size] is not 0, a [learn_from_inference] in which
    [act] explores returns without raising; afterwards [previous_state] is
    the state vector from before the call, and [memory] has gained, at its
    right end, an experience with the drawn action, the feedback as reward
    and the flag false. *)
Theorem learn_from_inference_when_exploring feedback rand r h :
  consistent h ->
  self.current_user_emotion h ∈ self.emotions h ->
  self.action_size h <> 0 ->
  (rand <= self.epsilon h)%Q ->
  exists h' t,
    learn_from_inference feedback rand r h = (Ok tt, h') /\
    self.previous_state h' = Some (state_vector h) /\
    last (dq_items (self.memory h')) = Some t /\
    tr_action t = Z.of_nat (r mod self.action_size h) /\
    tr_reward t = feedback /\
    tr_done t = false.
Proof.
  intros Hcons Hin Hn Hle.
  pose proof Hcons as (_ & _ & Hk & He & Hmax & _).
  assert (is_Some (dict_get (self.initiative_map h) (self.current_user_emotion h)))
    as [i Ei] by (apply elem_of_keys; by apply He).
  assert (is_Some (dict_get (self.emotion_reward_map h) (self.current_user_emotion h)))
    as [rw Er] by (apply elem_of_keys; rewrite Hk; by apply He).
  unfold learn_from_inference. rewrite bind_run. cbn [attr].
  rewrite bind_run, (update_emotion_and_initiative_run _ _ feedback rw i Er Ei).
  rewrite bind_run, get_current_state_run, bind_run, act_explores by done.
  cbn [self.action_size self.set_initiative_map self.set_emotion_reward_map
       self.set_previous_state].
  unfold randrange. rewrite (proj2 (Nat.eqb_neq _ _) Hn).
  rewrite bind_run. cbn [attr]. rewrite remember_run.
  eexists _, _. split; [reflexivity|].
  split; [reflexivity|].
  cbn [self.previous_state self.memory self.set_memory self.set_initiative_map
       self.set_emotion_reward_map self.set_previous_state].
  split.
  - unfold append. rewrite Hmax. cbn [Nat.eqb].
    destruct (_ <? _); cbn [dq_items]; apply last_snoc.
  - by repeat split.
Qed.

End CycleFacts.


Lemma memory_holds_cycle_experiences_witness :
  Forall (@no_direct_push) [LearnFromInference 0.5 0.3 7; Replay 1 [0]] /\
  Forall cycle_experience
    (dq_items (self.memory
       (@after_all idle [LearnFromInference 0.5 0.3 7; Replay 1 [0]]
          (init_attrs (default_args zeros))))).
Proof.
  assert (Hcs : Forall (@no_direct_push)
                  [LearnFromInference 0.5 0.3 7; Replay 1 [0]])
    by (repeat constructor).
  split; [exact Hcs|].
  exact (@memory_holds_cycle_experiences idle (default_args zeros) _ Hcs).
Defined.

Lemma learn_from_inference_needs_neutral_witness :
  ("neutral"%string ∉ arg_emotions without_neutral) /\
  (learn_from_inference 0.5 0.3 7 (@init_attrs idle without_neutral)).1 = Raise KeyError.
Proof.
  assert (Hout : "neutral"%string ∉ arg_emotions without_neutral)
    by (apply (bool_decide_unpack _); vm_compute; reflexivity).
  split; [exact Hout|].
  exact (proj1 (@learn_from_inference_needs_neutral idle without_neutral [] 0.5 0.3 7 Hout)).
Defined.

Lemma learn_from_inference_when_exploring_witness :
  consistent fresh /\
  self.current_user_emotion fresh ∈ self.emotions fresh /\
  self.action_size fresh <> 0 /\
  (0.3 <= self.epsilon fresh)%Q /\
  exists h' t,
    learn_from_inference 0.5 0.3 7 fresh = (Ok tt, h') /\
    self.previous_state h' = Some (state_vector fresh) /\
    last (dq_items (self.memory h')) = Some t /\
    tr_action t = Z.of_nat (7 mod self.action_size fresh) /\
    tr_reward t = 0.5%Q /\
    tr_done t = false.
Proof.
  pose proof (@consistent_init_attrs idle (default_args zeros)) as Hc.
  fold fresh in Hc.
  assert (Hin : self.current_user_emotion fresh ∈ self.emotions fresh)
    by (apply (bool_decide_unpack _); vm_compute; reflexivity).
  assert (Hn : self.action_size fresh <> 0) by discriminate.
  assert (Hle : (0.3 <= self.epsilon fresh)%Q) by (vm_compute; discriminate).
  split; [exact Hc|]. split; [exact Hin|]. split; [exact Hn|]. split; [exact Hle|].
  exact (@learn_from_inference_when_exploring idle 0.5 0.3 7 fresh Hc Hin Hn Hle).
Defined.

(** ** The classifier boundary *)

Section AscendingFacts.
Context {A : Type} (key : A -> Q).

Lemma sorted_insert_ascending (x : A) (s : list A) :
  StronglySorted (fun a b => (key a <= key b)%Q) s ->
  StronglySorted (fun a b => (key a <= key b)%Q) (sorted_insert key false x s).
Proof.
  intros Hs. induction Hs as [|y s Hs IH Hy]; cbn.
  - repeat constructor.
  - unfold goes_first. destruct (Qle_bool (key x) (key y)) eqn:E.
    + apply Qle_bool_iff in E. constructor; [by constructor|].
      constructor; [done|].
      eapply Forall_impl; [exact Hy|]. intros z Hz. cbn in Hz.
      by apply Qle_trans with (key y).
    + assert (Hyx : (key y <= key x)%Q).
      { apply Qlt_le_weak, Qnot_le_lt. intros Hle.
        apply Qle_bool_iff in Hle. congruence. }
      constructor; [done|].
      rewrite sorted_insert_Permutation. by constructor.
Qed.

Lemma sorted_ascending (l : list A) :
  StronglySorted (fun a b => (key a <= key b)%Q) (sorted key false l).
Proof.
  induction l as [|x l IH]; cbn; [constructor|]. by apply sorted_insert_ascending.
Qed.

End AscendingFacts.

Section ClassifierFacts.
Context `{External}.

(** X17. [classify_emotion] hands back [None] for no text; for a text it hands
    back every entry of the classifier's answer, once, in ascending order of
    score, so that the most confident label comes last; it changes no
    attribute. *)
Theorem classify_emotion_sorts_by_score (scores : list (string * Q)) (h : self.t) :
  classify_emotion None scores h = (Ok None, h) /\
  forall text, exists l,
    classify_emotion (Some text) scores h = (Ok (Some l), h) /\
    l ≡ₚ scores /\
    StronglySorted (fun a b => (a.2 <= b.2)%Q) l /\
    (forall top, last l = Some top -> forall entry, entry ∈ scores -> (entry.2 <= top.2)%Q).
Proof.
  split; [done|]. intros text. eexists. split; [done|].
  split; [apply sorted_Permutation|].
  split; [apply (sorted_ascending snd)|].
  intros top Htop entry Hin.
  pose proof (sorted_ascending snd scores) as Hs.
  pose proof (sorted_Permutation snd false scores) as Hp.
  rewrite <- Hp in Hin.
  destruct (sorted snd false scores) as [|x l _] using rev_ind; [done|].
  rewrite last_snoc in Htop. injection Htop as ->.
  apply elem_of_app in Hin as [Hin|Hin%list_elem_of_singleton]; [|subst; apply Qle_refl].
  revert Hin. clear Hp. induction l as [|y l IH]; [by intros ?%elem_of_nil|].
  cbn in Hs. apply StronglySorted_inv in Hs as [Hs Hy].
  intros [->|Hin]%elem_of_cons; [|by apply IH].
  apply (proj1 (Forall_forall _ _) Hy). apply elem_of_app. right. by left.
Qed.

End ClassifierFacts.

(** ** The first feedback *)

Lemma elem_of_dict_setitem {V} (d : dict V) (k : string) (v : V) (kv : string * V) :
  kv ∈ dict_setitem d k v -> kv = (k, v) \/ kv ∈ d.
Proof.
  induction d as [|[k0 v0] d IH]; cbn.
  - intros ->%list_elem_of_singleton. by left.
  - destruct (String.eqb_spec k0 k) as [->|Hne].
    + intros [->|Hin]%elem_of_cons; [by left|]. right. by right.
    + intros [->|Hin]%elem_of_cons; [right; by left|].
      destruct (IH Hin) as [->|Hd]; [by left|]. right. by right.
Qed.

Lemma dict_comprehension_values {V} (ks : list string) (v : V) (kv : string * V) :
  kv ∈ dict_comprehension ks v -> kv.2 = v.
Proof.
  unfold dict_comprehension.
  assert (Hgen : forall d0 : dict V,
            (forall kv, kv ∈ d0 -> kv.2 = v) ->
            forall kv, kv ∈ foldl (fun d k => dict_setitem d k v) d0 ks -> kv.2 = v).
  { induction ks as [|k ks IH]; intros d0 Hd0; cbn [foldl]; [done|].
    apply IH. intros kv' [->|Hin]%elem_of_dict_setitem; [done|]. by apply Hd0. }
  apply Hgen. by intros ? ?%elem_of_nil.
Qed.

Section FirstFeedbackFacts.
Context `{External}.

(** The first entry of the ranking has the greatest initiative. *)
Lemma ranking_head (h : self.t) (a : string * Q) rest :
  ranking h = a :: rest ->
  a ∈ self.initiative_map h /\
  forall b, b ∈ self.initiative_map h -> (b.2 <= a.2)%Q.
Proof.
  intros Hr.
  pose proof (ranking_Permutation h) as Hperm. unfold items in Hperm.
  pose proof (ranking_sorted h) as Hsorted. rewrite Hr in Hperm, Hsorted.
  split; [rewrite <- Hperm; by left|].
  intros b Hin. rewrite <- Hperm in Hin.
  apply StronglySorted_inv in Hsorted as [_ Hall].
  apply elem_of_cons in Hin as [->|Hin]; [apply Qle_refl|].
  apply (stays_before_key snd (self.initiative_map h) a b).
  by apply (proj1 (Forall_forall _ _) Hall).
Qed.

(** X18. On a newly constructed handler, the first feedback decides the single
    strong emotion: after [update_emotion_and_initiative e f] for an emotion
    [e] of the set, action 0 answers with [e] alone, whatever the feedback
    was and wherever [e] stands in the emotion list. *)
Theorem first_feedback_tops_the_ranking (args : Args) (e : string) (feedback : Q) :
  e ∈ arg_emotions args ->
  exists h1,
    update_emotion_and_initiative e feedback (init_attrs args) = (Ok tt, h1) /\
    map_action_to_emotions 0 h1 = (Ok [e], h1).
Proof.
  intros Hin.
  assert (is_Some (dict_get (dict_comprehension (arg_emotions args) 1%Q) e)) as [v Hv].
  { apply elem_of_keys. by apply elem_of_dict_comprehension. }
  eexists. split.
  { by apply (update_emotion_and_initiative_run (init_attrs args) e feedback v v). }
  set (h1 := self.set_initiative_map _ _).
  assert (Hmap : self.initiative_map h1 =
                   dict_setitem (dict_comprehension (arg_emotions args) 1%Q) e (v + 0.1)%Q)
    by reflexivity.
  assert (Hv1 : v = 1%Q).
  { assert (Hel : (e, v) ∈ dict_comprehension (arg_emotions args) 1%Q).
    { clear -Hv. induction (dict_comprehension (arg_emotions args) 1%Q) as [|[k w] d IH];
        [done|]. cbn in Hv. destruct (String.eqb_spec k e) as [->|];
        [injection Hv as ->; by left | right; by apply IH]. }
    by apply dict_comprehension_values in Hel. }
  subst v.
  unfold map_action_to_emotions. run_method. fold (ranking h1).
  destruct (ranking h1) as [|[e0 v0] rest] eqn:Hr.
  { pose proof (ranking_Permutation h1) as Hp. rewrite Hr in Hp.
    apply Permutation_nil_l in Hp. unfold items in Hp. rewrite Hmap in Hp.
    assert (He : is_Some (dict_get (@nil (string * Q)) e))
      by (rewrite Hp, dict_get_setitem_eq; eauto).
    by destruct He. }
  destruct (ranking_head h1 (e0, v0) rest Hr) as [Hhead Hmax].
  cbn. do 3 f_equal.
  rewrite Hmap in Hhead, Hmax.
  apply elem_of_dict_setitem in Hhead as [[= -> ->]|Hold]; [done|].
  apply dict_comprehension_values in Hold. cbn in Hold. subst v0.
  assert (Hnew : (e, (1 + 0.1)%Q) ∈
                   dict_setitem (dict_comprehension (arg_emotions args) 1%Q) e (1 + 0.1)%Q).
  { clear. induction (dict_comprehension (arg_emotions args) 1%Q) as [|[k w] d IH]; cbn.
    - by left.
    - destruct (String.eqb_spec k e) as [->|]; [by left | right; exact IH]. }
  apply Hmax in Hnew. cbn in Hnew. exfalso. revert Hnew. by vm_compute.
Qed.

End FirstFeedbackFacts.

Lemma first_feedback_tops_the_ranking_witness :
  "sadness"%string ∈ arg_emotions (default_args zeros) /\
  exists h1,
    update_emotion_and_initiative "sadness" (-1) fresh = (Ok tt, h1) /\
    map_action_to_emotions 0 h1 = (Ok ["sadness"%string], h1).
Proof.
  assert (Hin : "sadness"%string ∈ arg_emotions (default_args zeros))
    by (apply (bool_decide_unpack _); vm_compute; reflexivity).
  split; [exact Hin|].
  exact (@first_feedback_tops_the_ranking idle (default_args zeros) "sadness" (-1) Hin).
Defined.
